(** * Clustergram: aggregation and rendering pipeline

    A shallow embedding of [clustergram/clustergram.py] (class
    [Clustergram]) and the properties of its cluster-trajectory pipeline.

    Modelling conventions.
    - Python objects are records whose attributes may be absent
      ([option]); reading an absent attribute raises [AttributeError].
    - Methods run in a state-and-exception monad over a [World]: the
      object, a heap of dictionary objects that callers may share with
      the object, and the trace of calls made to the external
      collaborators (estimators, PCA, drawing canvases).
    - A [pandas.DataFrame] is an insertion-ordered list of named columns.
    - Positions are floating-point numbers in the program; here they are
      exact rationals [Q], compared with [Qcompare].  There is no NaN and
      no rounding in the model.
    - A call to a drawing canvas is recorded in the trace and returns,
      with one exception: [ax.scatter] raises [ValueError] when its
      coordinates or marker sizes differ in size, as matplotlib does,
      and draws nothing then.  (The column source of bokeh only warns
      about columns of different lengths.)  Of [plot], the branch without stratification is
      embedded as a method; of the stratified branch, the transition
      table and the parallelograms are embedded as functions. *)

From Stdlib Require Import ZArith QArith List Lia Bool.
From stdpp Require Import gmap strings list.
Import ListNotations.

Local Open Scope Z_scope.

(** ** Exceptions and results *)

Inductive exn : Type :=
| KeyError
| ValueError
| IndexError
| AttributeError
| TypeError
| ZeroDivisionError.

Definition result (A : Type) : Type := exn + A.

Definition ok {A} (a : A) : result A := inr a.
Definition raise {A} (e : exn) : result A := inl e.

Definition rbind {A B} (r : result A) (k : A -> result B) : result B :=
  match r with
  | inl e => inl e
  | inr a => k a
  end.

Definition exn_eqb (a b : exn) : bool :=
  match a, b with
  | KeyError, KeyError | ValueError, ValueError | IndexError, IndexError
  | AttributeError, AttributeError | TypeError, TypeError
  | ZeroDivisionError, ZeroDivisionError => true
  | _, _ => false
  end.

(** ** Comparison functions used as grouping keys *)

Module Key.

(** The laws a three-way comparison needs for grouping: equal keys
    compare alike against everything, swapping the arguments flips the
    result, and [Lt] is transitive. *)
Record lawful {K : Type} (cmp : K -> K -> comparison) : Prop := {
  cmp_cong : forall a b c, cmp a b = Eq -> cmp a c = cmp b c;
  cmp_opp : forall a b, cmp b a = CompOpp (cmp a b);
  cmp_lt_trans : forall a b c, cmp a b = Lt -> cmp b c = Lt -> cmp a c = Lt
}.

Definition eqb {K} (cmp : K -> K -> comparison) (a b : K) : bool :=
  match cmp a b with Eq => true | _ => false end.

(** Lexicographic comparison of pairs, the order of a two-level
    group key. *)
Definition lex {A B} (ca : A -> A -> comparison) (cb : B -> B -> comparison)
    (x y : A * B) : comparison :=
  match ca (fst x) (fst y) with
  | Eq => cb (snd x) (snd y)
  | c => c
  end.

End Key.

(** ** Grouping *)

Module GroupBy.
Section Grouping.

Context {K : Type} (cmp : K -> K -> comparison).

(** [add k w gs] adds weight [w] to the group of key [k] in the
    key-sorted list of groups [gs], opening the group when it is new. *)
Fixpoint add (k : K) (w : Z) (gs : list (K * Z)) : list (K * Z) :=
  match gs with
  | [] => [(k, w)]
  | (k', c) :: gs' =>
      match cmp k k' with
      | Eq => (k', c + w) :: gs'
      | Lt => (k, w) :: (k', c) :: gs'
      | Gt => (k', c) :: add k w gs'
      end
  end.

(** [groupby(keys).<col>.sum()]: one entry per distinct key, in key
    order, with the sum of the weights of the rows of the group. *)
Definition sums (rows : list (K * Z)) : list (K * Z) :=
  fold_left (fun gs r => add (fst r) (snd r) gs) rows [].

(** [groupby(keys).size()]: the number of rows of each group. *)
Definition sizes (keys : list K) : list (K * Z) :=
  sums (map (fun k => (k, 1)) keys).

(** Sum of the weights of the entries whose key equals [h]. *)
Definition weight_at (h : K) (l : list (K * Z)) : Z :=
  fold_right (fun r acc => if Key.eqb cmp (fst r) h then snd r + acc else acc) 0 l.

Definition total (l : list (K * Z)) : Z :=
  fold_right (fun r acc => snd r + acc) 0 l.

(** The entries of [l] whose key equals [h]; an inner join on the key
    picks exactly these. *)
Definition matching (h : K) (l : list (K * Z)) : list (K * Z) :=
  List.filter (fun r => Key.eqb cmp (fst r) h) l.

(** Keys strictly increase along a list of groups. *)
Fixpoint above (k : K) (gs : list (K * Z)) : Prop :=
  match gs with
  | [] => True
  | (k', _) :: gs' => cmp k k' = Lt /\ above k' gs'
  end.

Definition increasing (gs : list (K * Z)) : Prop :=
  match gs with
  | [] => True
  | (k, _) :: gs' => above k gs'
  end.

Definition positive_weights (l : list (K * Z)) : Prop :=
  Forall (fun g => 0 < snd g) l.

End Grouping.
End GroupBy.

(** ** Python and numpy helpers *)

Definition Data : Type := list (list Q).
Definition Centers : Type := list (list Q).

(** An insertion-ordered dictionary with integer keys. *)
Definition odict (V : Type) : Type := list (Z * V).

Fixpoint od_get {V} (d : odict V) (k : Z) : option V :=
  match d with
  | [] => None
  | (k', v) :: d' => if Z.eqb k k' then Some v else od_get d' k
  end.

(** [d[k] = v]: overwrite in place, or append a new key. *)
Fixpoint od_set {V} (d : odict V) (k : Z) (v : V) : odict V :=
  match d with
  | [] => [(k, v)]
  | (k', v') :: d' => if Z.eqb k k' then (k', v) :: d' else (k', v') :: od_set d' k v
  end.

Definition od_keys {V} (d : odict V) : list Z := map fst d.

(** [d[k]] on a dictionary or on the columns of a frame. *)
Definition getitem {V} (d : odict V) (k : Z) : result V :=
  match od_get d k with
  | Some v => ok v
  | None => raise KeyError
  end.

(** [l[i]] with Python's negative indices. *)
Definition py_index {A} (l : list A) (i : Z) : result A :=
  let n := Z.of_nat (length l) in
  let j := if i <? 0 then i + n else i in
  if (0 <=? j) && (j <? n) then
    match nth_error l (Z.to_nat j) with
    | Some a => ok a
    | None => raise IndexError
    end
  else raise IndexError.

(** [l[-1]] *)
Definition py_last {A} (l : list A) : result A := py_index l (-1).

(** [range(n)] *)
Definition py_range (n : Z) : list Z := map Z.of_nat (seq 0 (Z.to_nat n)).

(** [[x] * n] *)
Definition py_repeat {A} (x : A) (n : Z) : list A := repeat x (Z.to_nat n).

Fixpoint mapM {A B} (f : A -> result B) (l : list A) : result (list B) :=
  match l with
  | [] => ok []
  | a :: l' => rbind (f a) (fun b => rbind (mapM f l') (fun bs => ok (b :: bs)))
  end.

(** [np.take(a, idx)] *)
Definition np_take {A} (a : list A) (idx : list Z) : result (list A) :=
  mapM (py_index a) idx.

Definition Qsum (l : list Q) : Q := fold_right Qplus 0%Q l.

Definition Zsum (l : list Z) : Z := fold_right Z.add 0 l.

(** The mean of one row. *)
Definition row_mean (row : list Q) : Q :=
  (Qsum row / inject_Z (Z.of_nat (length row)))%Q.

(** [np.mean(a, axis=1)] *)
Definition np_mean_axis1 (a : list (list Q)) : list Q := map row_mean a.

Fixpoint vsum (u v : list Q) : list Q :=
  match u, v with
  | x :: u', y :: v' => (x + y)%Q :: vsum u' v'
  | _, _ => []
  end.

(** [a.mean(axis=0)]: the feature-wise mean of the rows of [a]. *)
Definition mean_axis0 (a : list (list Q)) : list Q :=
  match a with
  | [] => []
  | r :: rs =>
      map (fun s => (s / inject_Z (Z.of_nat (length a)))%Q) (fold_left vsum rs r)
  end.

Fixpoint dot1 (u v : list Q) : Q :=
  match u, v with
  | x :: u', y :: v' => (x * y + dot1 u' v')%Q
  | _, _ => 0%Q
  end.

(** [a.dot(v)] for a matrix [a] and a vector [v]; numpy raises
    [ValueError] when the shapes are not aligned. *)
Definition np_dot (a : list (list Q)) (v : list Q) : result (list Q) :=
  mapM (fun row => if Nat.eqb (length row) (length v) then ok (dot1 row v)
                   else raise ValueError) a.

(** First index of a maximal element, [np.argmax]; [ValueError] on an
    empty sequence. *)
Fixpoint argmax_from (best : Q) (bi i : nat) (l : list Q) : nat :=
  match l with
  | [] => bi
  | x :: l' =>
      match (x ?= best)%Q with
      | Gt => argmax_from x i (S i) l'
      | _ => argmax_from best bi (S i) l'
      end
  end.

Definition np_argmax (l : list Q) : result nat :=
  match l with
  | [] => raise ValueError
  | x :: l' => ok (argmax_from x 0%nat 1%nat l')
  end.

(** A dictionary with floating-point keys, as built by
    [dict(zip(means, range(n)))]: a later pair with an equal key
    overwrites the value and keeps the position of the first. *)
Definition LinkDict : Type := list (Q * Z).

Fixpoint ld_set (d : LinkDict) (k : Q) (v : Z) : LinkDict :=
  match d with
  | [] => [(k, v)]
  | (k', v') :: d' => if Qeq_bool k k' then (k', v) :: d' else (k', v') :: ld_set d' k v
  end.

Fixpoint ld_get (d : LinkDict) (k : Q) : result Z :=
  match d with
  | [] => raise KeyError
  | (k', v) :: d' => if Qeq_bool k k' then ok v else ld_get d' k
  end.

Definition dict_zip (means : list Q) (r : list Z) : LinkDict :=
  fold_left (fun d kv => ld_set d (fst kv) (snd kv)) (combine means r) [].

(** ** Data frames *)

(** A frame of positions: named columns in insertion order, one cell
    per observation.  All columns of a frame have the same length. *)
Definition DataFrame : Type := odict (list Q).
Definition LabelFrame : Type := odict (list Z).

(** [len(df)]: the number of rows. *)
Definition df_len {A} (df : odict (list A)) : Z :=
  match df with
  | [] => 0
  | (_, c) :: _ => Z.of_nat (length c)
  end.

(** [df.empty]: no column or no row. *)
Definition df_empty {A} (df : odict (list A)) : bool :=
  match df with
  | [] => true
  | (_, c) :: _ => Nat.eqb (length c) 0
  end.

(** The columns that are not grouping keys. *)
Definition df_others {A} (df : odict (list A)) (keys : list Z) : list Z :=
  List.filter (fun c => negb (existsb (Z.eqb c) keys)) (od_keys df).

Definition Qpair_cmp : Q * Q -> Q * Q -> comparison := Key.lex Qcompare Qcompare.

(** [Series.value_counts()]: the distinct values with their number of
    occurrences, most frequent first; values with the same count keep
    the order of their first occurrence. *)
Fixpoint vc_add (x : Q) (l : list (Q * Z)) : list (Q * Z) :=
  match l with
  | [] => [(x, 1)]
  | (y, c) :: l' => if Qeq_bool x y then (y, c + 1) :: l' else (y, c) :: vc_add x l'
  end.

Fixpoint vc_insert (e : Q * Z) (l : list (Q * Z)) : list (Q * Z) :=
  match l with
  | [] => [e]
  | e' :: l' => if snd e' <=? snd e then e :: l else e' :: vc_insert e l'
  end.

Definition value_counts (col : list Q) : list (Q * Z) :=
  fold_right vc_insert [] (fold_left (fun l x => vc_add x l) col []).

(** One row of [df.groupby([a, b]).count().reset_index()], as the tuple
    that [itertuples] yields after the row index: the two key values
    [r[1]] and [r[2]], then one count per remaining column of the frame.
    [count] counts the cells that are not missing; a position is never
    missing here, so each count is the size of the group. *)
Record CountRow : Type := {
  cr_head : Q;
  cr_tail : Q;
  cr_counts : list Z
}.

(** When a key is not a column and the list of keys is as long as the
    frame, pandas reads the list as the group labels of the rows.  For
    two keys this is a frame of two rows: the table then has the labels
    as index, and after [reset_index] a row holds its label, then the
    count of every column of the frame. *)
Definition groupby_labels (df : DataFrame) (a b : Z) : list CountRow :=
  map (fun g => {| cr_head := inject_Z (fst g);
                   cr_tail := inject_Z (snd g);
                   cr_counts := map (fun _ => snd g) (tl (od_keys df)) |})
      (GroupBy.sizes Z.compare [a; b]).

Definition groupby_count (df : DataFrame) (a b : Z) : result (list CountRow) :=
  match od_get df a, od_get df b with
  | Some ca, Some cb =>
      let others := df_others df [a; b] in
      ok (map (fun g => {| cr_head := fst (fst g); cr_tail := snd (fst g);
                           cr_counts := map (fun _ => snd g) others |})
              (GroupBy.sizes Qpair_cmp (combine ca cb)))
  | _, _ =>
      if Z.eqb (df_len df) 2 then ok (groupby_labels df a b) else raise KeyError
  end.

(** ** The object, the heap and the collaborators *)

(** Values of keyword arguments. *)
Inductive pyval : Type :=
| VNone
| VBool (b : bool)
| VInt (z : Z)
| VStr (s : string).

(** Truthiness, [if v:]. *)
Definition truthy (v : pyval) : bool :=
  match v with
  | VNone => false
  | VBool b => b
  | VInt z => negb (Z.eqb z 0)
  | VStr s => negb (String.eqb s "")
  end.

(** A linkage matrix and a fitted PCA basis ([components_], one row per
    component). *)
Definition Linkage : Type := list (list Q).
Definition Basis : Type := list (list Q).

(** What a fitted Gaussian mixture exposes. *)
Record GMMFit : Type := {
  n_components : Z;
  means_ : list (list Q);
  covariances_ : list (list (list Q));
  predict : list Z;
  gmm_bic : Q
}.

(** The external collaborators, specified at their interface only. *)
Record Collaborators : Type := {
  (* [KMeans] / [MiniBatchKMeans] of scikit-learn: labels_ and cluster_centers_ *)
  KMeans_fit : forall (minibatch : bool) (n : Z) (kw : gmap string pyval)
                 (X : Data) (fit_kw : gmap string pyval), result (list Z * Centers);
  (* [KMeans] of cuML *)
  cuKMeans_fit : forall (n : Z) (kw : gmap string pyval)
                 (X : Data) (fit_kw : gmap string pyval), result (list Z * Centers);
  GaussianMixture_fit : forall (n : Z) (kw : gmap string pyval)
                 (X : Data) (fit_kw : gmap string pyval), result GMMFit;
  (* [multivariate_normal(cov, mean, allow_singular=True).logpdf(data)] *)
  logpdf : forall (cov : list (list Q)) (mean : list Q) (X : Data), result (list Q);
  hierarchy_linkage : forall (X : Data) (method : pyval) (kw : gmap string pyval),
                 result Linkage;
  (* [node.dist] for the nodes of [hierarchy.to_tree(linkage, rd=True)] *)
  to_tree_dists : Linkage -> list Q;
  (* [hierarchy.fcluster(linkage, d, criterion="distance")] *)
  fcluster : Linkage -> Q -> list Z;
  (* [PCA(...).fit(data).components_], of scikit-learn or of cuML *)
  PCA_fit : forall (cuml : bool) (kw : gmap string pyval) (X : Data), result Basis
}.

(** Calls made to the collaborators, in program order. *)
Inductive event : Type :=
| EvKMeans (minibatch : bool) (n : Z)
| EvCuKMeans (n : Z)
| EvGaussianMixture (n : Z)
| EvLinkage (method : pyval)
| EvFcluster (d : Q)
| EvPCA (kw : gmap string pyval)
(* [ax.scatter(x, y, s)] *)
| EvScatter (x : list Z) (y : list Q) (s : list Q)
(* [ax.plot([x0, x1], [y0, y1], linewidth=lw)] *)
| EvPlot (x0 x1 : Z) (y0 y1 : Q) (lw : Q)
(* [fig.line([x0, x1], [y0, y1], line_width=lw)] *)
| EvFigLine (x0 x1 : Z) (y0 y1 : Q) (lw : Q)
(* [fig.scatter("x", "y", size="size", source=...)], with the columns of
   the source: x, y, size, count, ratio, cluster_labels *)
| EvFigScatter (x : list Z) (y : list Q) (s : list Q) (count : list Z)
    (ratio : list Q) (cluster_labels : list Z).

(** The attributes of a [Clustergram].  [k_range], [backend] and
    [_backend] are always set and may hold Python's [None]; for every
    other optional field [None] means that the attribute has not been
    assigned yet. *)
Record Clustergram : Type := {
  k_range : option (list Z);
  backend : option string;
  method : string;
  verbose : bool;
  kwargs : gmap string pyval;
  _backend : option string;
  store_bic : option pyval;
  plot_data : option DataFrame;
  plot_data_pca : option (gmap Z DataFrame);
  _n_pca : option Z;
  _link_pca : option (gmap Z (odict LinkDict));
  data : option Data;
  labels : option LabelFrame;
  cluster_centers : option (odict Centers);
  linkage : option Linkage;
  bic : option (odict Q);
  pca : option Basis;
  link : option (odict LinkDict)
}.

(** Attribute assignment, [self.<field> = v]. *)
Definition set_k_range (v : option (list Z)) (o : Clustergram) : Clustergram :=
  {| k_range := v; backend := backend o; method := method o;
     verbose := verbose o; kwargs := kwargs o; _backend := _backend o;
     store_bic := store_bic o; plot_data := plot_data o;
     plot_data_pca := plot_data_pca o; _n_pca := _n_pca o;
     _link_pca := _link_pca o; data := data o; labels := labels o;
     cluster_centers := cluster_centers o; linkage := linkage o;
     bic := bic o; pca := pca o; link := link o |}.

Definition set_kwargs (v : gmap string pyval) (o : Clustergram) : Clustergram :=
  {| k_range := k_range o; backend := backend o; method := method o;
     verbose := verbose o; kwargs := v; _backend := _backend o;
     store_bic := store_bic o; plot_data := plot_data o;
     plot_data_pca := plot_data_pca o; _n_pca := _n_pca o;
     _link_pca := _link_pca o; data := data o; labels := labels o;
     cluster_centers := cluster_centers o; linkage := linkage o;
     bic := bic o; pca := pca o; link := link o |}.

Definition set__backend (v : string) (o : Clustergram) : Clustergram :=
  {| k_range := k_range o; backend := backend o; method := method o;
     verbose := verbose o; kwargs := kwargs o; _backend := Some v;
     store_bic := store_bic o; plot_data := plot_data o;
     plot_data_pca := plot_data_pca o; _n_pca := _n_pca o;
     _link_pca := _link_pca o; data := data o; labels := labels o;
     cluster_centers := cluster_centers o; linkage := linkage o;
     bic := bic o; pca := pca o; link := link o |}.

Definition set_store_bic (v : pyval) (o : Clustergram) : Clustergram :=
  {| k_range := k_range o; backend := backend o; method := method o;
     verbose := verbose o; kwargs := kwargs o; _backend := _backend o;
     store_bic := Some v; plot_data := plot_data o;
     plot_data_pca := plot_data_pca o; _n_pca := _n_pca o;
     _link_pca := _link_pca o; data := data o; labels := labels o;
     cluster_centers := cluster_centers o; linkage := linkage o;
     bic := bic o; pca := pca o; link := link o |}.

Definition set_plot_data (v : DataFrame) (o : Clustergram) : Clustergram :=
  {| k_range := k_range o; backend := backend o; method := method o;
     verbose := verbose o; kwargs := kwargs o; _backend := _backend o;
     store_bic := store_bic o; plot_data := Some v;
     plot_data_pca := plot_data_pca o; _n_pca := _n_pca o;
     _link_pca := _link_pca o; data := data o; labels := labels o;
     cluster_centers := cluster_centers o; linkage := linkage o;
     bic := bic o; pca := pca o; link := link o |}.

Definition set_plot_data_pca (v : gmap Z DataFrame) (o : Clustergram) : Clustergram :=
  {| k_range := k_range o; backend := backend o; method := method o;
     verbose := verbose o; kwargs := kwargs o; _backend := _backend o;
     store_bic := store_bic o; plot_data := plot_data o;
     plot_data_pca := Some v; _n_pca := _n_pca o; _link_pca := _link_pca o;
     data := data o; labels := labels o;
     cluster_centers := cluster_centers o; linkage := linkage o;
     bic := bic o; pca := pca o; link := link o |}.

Definition set__n_pca (v : Z) (o : Clustergram) : Clustergram :=
  {| k_range := k_range o; backend := backend o; method := method o;
     verbose := verbose o; kwargs := kwargs o; _backend := _backend o;
     store_bic := store_bic o; plot_data := plot_data o;
     plot_data_pca := plot_data_pca o; _n_pca := Some v;
     _link_pca := _link_pca o; data := data o; labels := labels o;
     cluster_centers := cluster_centers o; linkage := linkage o;
     bic := bic o; pca := pca o; link := link o |}.

Definition set__link_pca (v : gmap Z (odict LinkDict)) (o : Clustergram) : Clustergram :=
  {| k_range := k_range o; backend := backend o; method := method o;
     verbose := verbose o; kwargs := kwargs o; _backend := _backend o;
     store_bic := store_bic o; plot_data := plot_data o;
     plot_data_pca := plot_data_pca o; _n_pca := _n_pca o;
     _link_pca := Some v; data := data o; labels := labels o;
     cluster_centers := cluster_centers o; linkage := linkage o;
     bic := bic o; pca := pca o; link := link o |}.

Definition set_data (v : Data) (o : Clustergram) : Clustergram :=
  {| k_range := k_range o; backend := backend o; method := method o;
     verbose := verbose o; kwargs := kwargs o; _backend := _backend o;
     store_bic := store_bic o; plot_data := plot_data o;
     plot_data_pca := plot_data_pca o; _n_pca := _n_pca o;
     _link_pca := _link_pca o; data := Some v; labels := labels o;
     cluster_centers := cluster_centers o; linkage := linkage o;
     bic := bic o; pca := pca o; link := link o |}.

Definition set_labels (v : LabelFrame) (o : Clustergram) : Clustergram :=
  {| k_range := k_range o; backend := backend o; method := method o;
     verbose := verbose o; kwargs := kwargs o; _backend := _backend o;
     store_bic := store_bic o; plot_data := plot_data o;
     plot_data_pca := plot_data_pca o; _n_pca := _n_pca o;
     _link_pca := _link_pca o; data := data o; labels := Some v;
     cluster_centers := cluster_centers o; linkage := linkage o;
     bic := bic o; pca := pca o; link := link o |}.

Definition set_cluster_centers (v : odict Centers) (o : Clustergram) : Clustergram :=
  {| k_range := k_range o; backend := backend o; method := method o;
     verbose := verbose o; kwargs := kwargs o; _backend := _backend o;
     store_bic := store_bic o; plot_data := plot_data o;
     plot_data_pca := plot_data_pca o; _n_pca := _n_pca o;
     _link_pca := _link_pca o; data := data o; labels := labels o;
     cluster_centers := Some v; linkage := linkage o; bic := bic o;
     pca := pca o; link := link o |}.

Definition set_linkage (v : Linkage) (o : Clustergram) : Clustergram :=
  {| k_range := k_range o; backend := backend o; method := method o;
     verbose := verbose o; kwargs := kwargs o; _backend := _backend o;
     store_bic := store_bic o; plot_data := plot_data o;
     plot_data_pca := plot_data_pca o; _n_pca := _n_pca o;
     _link_pca := _link_pca o; data := data o; labels := labels o;
     cluster_centers := cluster_centers o; linkage := Some v; bic := bic o;
     pca := pca o; link := link o |}.

Definition set_bic (v : odict Q) (o : Clustergram) : Clustergram :=
  {| k_range := k_range o; backend := backend o; method := method o;
     verbose := verbose o; kwargs := kwargs o; _backend := _backend o;
     store_bic := store_bic o; plot_data := plot_data o;
     plot_data_pca := plot_data_pca o; _n_pca := _n_pca o;
     _link_pca := _link_pca o; data := data o; labels := labels o;
     cluster_centers := cluster_centers o; linkage := linkage o;
     bic := Some v; pca := pca o; link := link o |}.

Definition set_pca (v : Basis) (o : Clustergram) : Clustergram :=
  {| k_range := k_range o; backend := backend o; method := method o;
     verbose := verbose o; kwargs := kwargs o; _backend := _backend o;
     store_bic := store_bic o; plot_data := plot_data o;
     plot_data_pca := plot_data_pca o; _n_pca := _n_pca o;
     _link_pca := _link_pca o; data := data o; labels := labels o;
     cluster_centers := cluster_centers o; linkage := linkage o;
     bic := bic o; pca := Some v; link := link o |}.

Definition set_link (v : odict LinkDict) (o : Clustergram) : Clustergram :=
  {| k_range := k_range o; backend := backend o; method := method o;
     verbose := verbose o; kwargs := kwargs o; _backend := _backend o;
     store_bic := store_bic o; plot_data := plot_data o;
     plot_data_pca := plot_data_pca o; _n_pca := _n_pca o;
     _link_pca := _link_pca o; data := data o; labels := labels o;
     cluster_centers := cluster_centers o; linkage := linkage o;
     bic := bic o; pca := pca o; link := Some v |}.

Definition loc : Type := positive.

(** The state a method call runs in. *)
Record World : Type := {
  self : Clustergram;
  heap : gmap loc (gmap string pyval);
  trace : list event
}.

Definition M (A : Type) : Type := World -> result A * World.

Definition ret {A} (a : A) : M A := fun w => (inr a, w).

Definition bind {A B} (c : M A) (k : A -> M B) : M B :=
  fun w => match c w with
           | (inl e, w') => (inl e, w')
           | (inr a, w') => k a w'
           end.

Notation "x <- c ;; k" := (bind c (fun x => k))
  (at level 20, c at level 99, k at level 200, only parsing).
Notation "c ;;; k" := (bind c (fun _ => k))
  (at level 100, k at level 200, right associativity, only parsing).

Definition throw {A} (e : exn) : M A := fun w => (inl e, w).

Definition lift {A} (r : result A) : M A := fun w => (r, w).

(** [self.<field>] *)
Definition attr {A} (f : Clustergram -> option A) : M A :=
  fun w => match f (self w) with
           | Some a => (inr a, w)
           | None => (inl AttributeError, w)
           end.

(** A field that is always set. *)
Definition field {A} (f : Clustergram -> A) : M A := fun w => (inr (f (self w)), w).

Definition assign (upd : Clustergram -> Clustergram) : M unit :=
  fun w => (inr tt, {| self := upd (self w); heap := heap w; trace := trace w |}).

Definition emit (e : event) : M unit :=
  fun w => (inr tt, {| self := self w; heap := heap w; trace := trace w ++ [e] |}).

(** The dictionary object at a location. *)
Definition deref (l : loc) : M (gmap string pyval) :=
  fun w => (inr (default ∅ (heap w !! l)), w).

(** [d[k] = v] on the dictionary object at [l]. *)
Definition dict_store (l : loc) (k : string) (v : pyval) : M unit :=
  fun w => (inr tt, {| self := self w;
                       heap := <[l := <[k := v]> (default ∅ (heap w !! l))]> (heap w);
                       trace := trace w |}).

(** [for x in l: body] *)
Fixpoint forM_ {A} (l : list A) (body : A -> M unit) : M unit :=
  match l with
  | [] => ret tt
  | x :: l' => body x ;;; forM_ l' body
  end.

(** [for x in it] where [it] may be [None]. *)
Definition iter {A} (it : option (list A)) : M (list A) :=
  match it with
  | Some l => ret l
  | None => throw TypeError
  end.

(** [with contextlib.suppress(e1, e2, ...): body] *)
Definition suppress (es : list exn) (body : M unit) : M unit :=
  fun w => match body w with
           | (inl e, w') => if existsb (exn_eqb e) es then (inr tt, w') else (inl e, w')
           | r => r
           end.

(** ** Fitting *)

Definition str_in (s : string) (l : list string) : bool := existsb (String.eqb s) l.

Definition is_none {A} (o : option A) : bool :=
  match o with None => true | Some _ => false end.

(** [self._backend in l] *)
Definition backend_in (b : option string) (l : list string) : bool :=
  match b with
  | Some s => str_in s l
  | None => false
  end.

(** [d.get(k, dflt)] *)
Definition kw_get (d : gmap string pyval) (k : string) (dflt : pyval) : pyval :=
  default dflt (d !! k).

(** An integer read from a keyword dictionary, [d[k]]. *)
Definition kw_int (d : gmap string pyval) (k : string) : result Z :=
  match d !! k with
  | None => raise KeyError
  | Some (VInt z) => ok z
  | Some (VBool b) => ok (if b then 1 else 0)
  | Some _ => raise TypeError
  end.

(** [df[k] = col] on an attribute that holds a frame or a dictionary. *)
Definition setitem {V} (get : Clustergram -> option (odict V))
    (set : odict V -> Clustergram -> Clustergram) (k : Z) (v : V) : M unit :=
  d <- attr get;;
  assign (set (od_set d k v)).

(** [data.groupby(lab).mean().values]: the feature-wise mean of each
    group of rows, groups in label order. *)
Definition groupby_mean (X : Data) (lab : list Z) : Centers :=
  map (fun g => mean_axis0
                  (map fst (List.filter (fun r => Z.eqb (snd r) (fst g)) (combine X lab))))
      (GroupBy.sizes Z.compare lab).

Definition __init__ (k_range0 : option (list Z)) (backend0 : option string)
    (method0 : string) (verbose0 : bool) (kwargs0 : gmap string pyval) : Clustergram :=
  {| k_range := k_range0; backend := backend0; method := method0;
     verbose := verbose0; kwargs := kwargs0; _backend := backend0;
     store_bic := None; plot_data := None; plot_data_pca := None;
     _n_pca := None; _link_pca := None; data := None; labels := None;
     cluster_centers := None; linkage := None; bic := None; pca := None;
     link := None |}.

Section Methods.

Variable C : Collaborators.

Definition _kmeans_sklearn (X : Data) (minibatch : bool)
    (fit_kw : gmap string pyval) : M unit :=
  assign (set_labels []);;;
  assign (set_cluster_centers []);;;
  kr <- field k_range;;
  ks <- iter kr;;
  forM_ ks (fun n =>
    if Z.eqb n 1 then
      setitem labels set_labels n (py_repeat 0 (Z.of_nat (length X)));;;
      setitem cluster_centers set_cluster_centers n [mean_axis0 X]
    else
      kw <- field kwargs;;
      emit (EvKMeans minibatch n);;;
      res <- lift (KMeans_fit C minibatch n kw X fit_kw);;
      setitem labels set_labels n (fst res);;;
      setitem cluster_centers set_cluster_centers n (snd res)).

Definition _kmeans_cuml (X : Data) (fit_kw : gmap string pyval) : M unit :=
  assign (set_labels []);;;
  assign (set_cluster_centers []);;;
  kr <- field k_range;;
  ks <- iter kr;;
  forM_ ks (fun n =>
    if Z.eqb n 1 then
      setitem labels set_labels n (py_repeat 0 (Z.of_nat (length X)));;;
      setitem cluster_centers set_cluster_centers n [mean_axis0 X]
    else
      kw <- field kwargs;;
      emit (EvCuKMeans n);;;
      res <- lift (cuKMeans_fit C n kw X fit_kw);;
      setitem labels set_labels n (fst res);;;
      setitem cluster_centers set_cluster_centers n (snd res)).

(** The centre of one mixture component: the observation of highest
    density under it. *)
Definition gmm_center (X : Data) (res : GMMFit) (i : Z) : result (list Q) :=
  rbind (py_index (covariances_ res) i) (fun cov =>
  rbind (py_index (means_ res) i) (fun mean =>
  rbind (logpdf C cov mean X) (fun density =>
  rbind (np_argmax density) (fun j =>
  py_index X (Z.of_nat j))))).

Definition _gmm_sklearn (X : Data) (fit_kw : gmap string pyval) : M unit :=
  assign (set_labels []);;;
  assign (set_cluster_centers []);;;
  sb <- attr store_bic;;
  (if truthy sb then assign (set_bic []) else ret tt);;;
  kr <- field k_range;;
  ks <- iter kr;;
  forM_ ks (fun n =>
    kw <- field kwargs;;
    let clean_kwargs := delete "bic" kw in
    emit (EvGaussianMixture n);;;
    res <- lift (GaussianMixture_fit C n clean_kwargs X fit_kw);;
    centers <- lift (mapM (gmm_center X res) (py_range (n_components res)));;
    (if truthy sb then setitem bic set_bic n (gmm_bic res) else ret tt);;;
    setitem labels set_labels n (predict res);;;
    setitem cluster_centers set_cluster_centers n centers).

Definition _scipy_hierarchical (X : Data) : M unit :=
  kw <- field kwargs;;
  (* method = self.kwargs.pop("linkage", "single") *)
  let method := kw_get kw "linkage" (VStr "single") in
  assign (set_kwargs (delete "linkage" kw));;;
  kw' <- field kwargs;;
  emit (EvLinkage method);;;
  Zl <- lift (hierarchy_linkage C X method kw');;
  assign (set_linkage Zl);;;
  let distances :=
    rev (List.filter (fun d => match (d ?= 0)%Q with Gt => true | _ => false end)
                     (to_tree_dists C Zl)) in
  assign (set_labels []);;;
  assign (set_cluster_centers []);;;
  kr <- field k_range;;
  (if is_none kr
   then assign (set_k_range
                  (Some (map (Z.add 1) (py_range (Z.of_nat (length distances))))))
   else ret tt);;;
  kr <- field k_range;;
  ks <- iter kr;;
  forM_ ks (fun i =>
    d <- lift (py_index distances (i - 1));;
    emit (EvFcluster d);;;
    let lab := fcluster C Zl d in
    setitem labels set_labels i (map (fun l => l - 1) lab);;;
    setitem cluster_centers set_cluster_centers i (groupby_mean X lab)).

Definition fit (X : Data) (fit_kw : gmap string pyval) : M unit :=
  b <- field backend;;
  (if is_none b || backend_in b ["sklearn"; "cuML"; "scipy"] then ret tt
   else throw ValueError);;;
  m <- field method;;
  assign (set__backend
            (match b with
             | None => if String.eqb m "hierarchical" then "scipy" else "sklearn"
             | Some s => s
             end));;;
  kr <- field k_range;;
  (if is_none kr && negb (String.eqb m "hierarchical")
   then throw ValueError else ret tt);;;
  b' <- field _backend;;
  (if (backend_in b' ["cuML"] && negb (String.eqb m "kmeans"))
      || (backend_in b' ["scipy"] && negb (String.eqb m "hierarchical"))
      || (backend_in b' ["sklearn"] && String.eqb m "hierarchical")
   then throw ValueError else ret tt);;;
  (if negb (str_in m ["kmeans"; "gmm"; "minibatchkmeans"; "hierarchical"])
      && negb (str_in m ["from_centers"; "from_data"])
   then throw ValueError else ret tt);;;
  kw <- field kwargs;;
  assign (set_store_bic (kw_get kw "bic" (VBool false)));;;
  assign (set_plot_data []);;;
  assign (set_plot_data_pca ∅);;;
  assign (set__n_pca 0);;;
  assign (set__link_pca ∅);;;
  assign (set_data X);;;
  (if backend_in b' ["sklearn"] then
     if String.eqb m "kmeans" then _kmeans_sklearn X false fit_kw
     else if String.eqb m "minibatchkmeans" then _kmeans_sklearn X true fit_kw
     else if String.eqb m "gmm" then _gmm_sklearn X fit_kw
     else ret tt
   else ret tt);;;
  (if backend_in b' ["cuML"] then _kmeans_cuml X fit_kw else ret tt);;;
  (if backend_in b' ["scipy"] then
     (* [_scipy_hierarchical] takes no keyword argument *)
     if bool_decide (fit_kw = ∅) then _scipy_hierarchical X else throw TypeError
   else ret tt).

End Methods.

(** [Clustergram.from_centers(cluster_centers, labels, data=None)] *)
Definition from_centers (cluster_centers0 : odict Centers) (labels0 : LabelFrame)
    (data0 : option Data) : result Clustergram :=
  if bool_decide (od_keys cluster_centers0 = od_keys labels0) then
    let cgram := __init__ (Some (od_keys cluster_centers0)) None "from_centers" true ∅ in
    let cgram := set_cluster_centers cluster_centers0 cgram in
    let cgram := set_labels labels0 cgram in
    let cgram := set__backend "sklearn" cgram in
    let cgram := set_plot_data [] cgram in
    let cgram := set_plot_data_pca ∅ cgram in
    let cgram := set__n_pca 0 cgram in
    let cgram := set__link_pca ∅ cgram in
    ok (match data0 with
        | Some d => set_data d cgram
        | None => cgram
        end)
  else raise ValueError.

(** ** Position reduction *)

Section Positions.

Variable C : Collaborators.

(** [self.plot_data_pca[n]] and [self._link_pca[n]] are [defaultdict]s:
    a missing key reads as an empty frame or dictionary. *)
Definition pca_frame (n_pca : Z) : M DataFrame :=
  pdp <- attr plot_data_pca;;
  ret (default [] (pdp !! n_pca)).

Definition pca_links (n_pca : Z) : M (odict LinkDict) :=
  lp <- attr _link_pca;;
  ret (default [] (lp !! n_pca)).

(** [_compute_pca_means_sklearn] and [_compute_pca_means_cuml] differ
    in the PCA implementation they call and in array conversions
    only. *)
Definition _compute_pca_means (cuml : bool) (pca_kwargs : gmap string pyval) : M unit :=
  n_pca <- lift (kw_int pca_kwargs "n_components");;
  cur <- attr _n_pca;;
  (if n_pca >? cur then
     assign (set__n_pca n_pca);;;
     X <- attr data;;
     emit (EvPCA pca_kwargs);;;
     basis <- lift (PCA_fit C cuml pca_kwargs X);;
     assign (set_pca basis)
   else ret tt);;;
  frame <- pca_frame n_pca;;
  if df_empty frame then
    kr <- field k_range;;
    ks <- iter kr;;
    forM_ ks (fun n =>
      cc <- attr cluster_centers;;
      centers <- lift (getitem cc n);;
      basis <- attr pca;;
      axis <- lift (py_index basis (n_pca - 1));;
      means <- lift (np_dot centers axis);;
      lab <- attr labels;;
      l <- lift (getitem lab n);;
      col <- lift (np_take means l);;
      frame <- pca_frame n_pca;;
      pdp <- attr plot_data_pca;;
      assign (set_plot_data_pca (<[n_pca := od_set frame n col]> pdp));;;
      links <- pca_links n_pca;;
      lp <- attr _link_pca;;
      assign (set__link_pca (<[n_pca := od_set links n (dict_zip means (py_range n))]> lp)))
  else ret tt.

Definition _compute_pca_means_sklearn : gmap string pyval -> M unit :=
  _compute_pca_means false.

Definition _compute_pca_means_cuml : gmap string pyval -> M unit :=
  _compute_pca_means true.

Definition _compute_means_sklearn : M unit :=
  assign (set_link []);;;
  kr <- field k_range;;
  ks <- iter kr;;
  forM_ ks (fun n =>
    cc <- attr cluster_centers;;
    centers <- lift (getitem cc n);;
    let means := np_mean_axis1 centers in
    lab <- attr labels;;
    l <- lift (getitem lab n);;
    col <- lift (np_take means l);;
    setitem plot_data set_plot_data n col;;;
    setitem link set_link n (dict_zip means (py_range n))).

(** The cuML variant computes the same values on device arrays. *)
Definition _compute_means_cuml : M unit := _compute_means_sklearn.

Definition _compute_means (pca_weighted : bool) (pca_kwargs : gmap string pyval) : M unit :=
  b <- field _backend;;
  if pca_weighted then
    if backend_in b ["sklearn"; "scipy"] then _compute_pca_means_sklearn pca_kwargs
    else _compute_pca_means_cuml pca_kwargs
  else
    pd <- attr plot_data;;
    if df_empty pd then
      if backend_in b ["sklearn"; "scipy"] then _compute_means_sklearn
      else _compute_means_cuml
    else ret tt.

(** ** Rendering *)

(** The default value of the [pca_kwargs] parameter is one dictionary
    object per method, created when the method is defined. *)
Definition plot_pca_kwargs_default : loc := 1%positive.
Definition bokeh_pca_kwargs_default : loc := 2%positive.

(** [a / b] on Python integers. *)
Definition py_div (a b : Z) : result Q :=
  if Z.eqb b 0 then raise ZeroDivisionError else ok (inject_Z a / inject_Z b)%Q.

(** [_, y_head, y_tail, *rest, count_tail = r] on a row of the
    transition table; the row starts with its index. *)
Definition unpack_count_tail (r : CountRow) : result Z :=
  match rev (cr_counts r) with
  | [] => raise ValueError
  | c :: _ => ok c
  end.

(** The transition lines of the static chart between [i] and [i + 1]. *)
Definition plot_lines (means : DataFrame) (ks : list Z) (i : Z) (linewidth : Q) : M unit :=
  last <- lift (py_last ks);;
  if i + 1 >? last then ret tt
  else
    sub <- lift (groupby_count means i (i + 1));;
    forM_ sub (fun r =>
      count_tail <- lift (unpack_count_tail r);;
      u <- lift (py_div 50 (df_len means));;
      emit (EvPlot i (i + 1) (cr_head r) (cr_tail r)
                   (inject_Z count_tail * u * linewidth)%Q)).

(** [ax.scatter(x, [y], s)]: matplotlib flattens [x] and [y] and raises
    [ValueError] when they differ in size, or when the marker sizes [s]
    are neither one value nor one per point; nothing is drawn then. *)
Definition scatter (x : list Z) (y s : list Q) : M unit :=
  if Nat.eqb (length x) (length y)
     && (Nat.eqb (length s) 1 || Nat.eqb (length s) (length x))
  then emit (EvScatter x y s)
  else throw ValueError.

(** One iteration of the loop of [plot] over the cluster counts: the
    markers of [i], then the lines towards [i + 1].  The markers are
    [ax.scatter([i] * i, [cl.index], cl * ((500 / len(means)) * size))]:
    [i] abscissas for as many ordinates as the column has distinct
    positions. *)
Definition plot_k (means : DataFrame) (ks : list Z) (size linewidth : Q) (i : Z)
    : M unit :=
  col <- lift (getitem means i);;
  let cl := value_counts col in
  u <- lift (py_div 500 (df_len means));;
  scatter (py_repeat i i) (map fst cl)
          (map (fun c => inject_Z (snd c) * (u * size))%Q cl);;;
  suppress [KeyError; ValueError] (plot_lines means ks i linewidth).

(** [Clustergram.plot] without stratification ([stratify_by_k=None]).
    Style dictionaries, colours and the axis are handed to the canvas
    unchanged and are left out. *)
Definition plot (size linewidth : Q) (k_range_arg : option (list Z))
    (pca_weighted : bool) (pca_kwargs : option loc) (pca_component : Z) : M unit :=
  let kwl := default plot_pca_kwargs_default pca_kwargs in
  dict_store kwl "n_components" (VInt pca_component);;;
  kw <- deref kwl;;
  _compute_means pca_weighted kw;;;
  kr <- (match k_range_arg with
         | None => field k_range
         | Some l => ret (Some l)
         end);;
  means <- (if pca_weighted then pca_frame pca_component else attr plot_data);;
  ks <- iter kr;;
  forM_ ks (plot_k means ks size linewidth).

(** The part of [plot] that comes before the loop over the cluster
    counts: the positions are computed or found in the cache, and the
    frame of the requested weighting is read. *)
Definition plot_positions (pca_weighted : bool) (pca_kwargs : option loc)
    (pca_component : Z) : M DataFrame :=
  let kwl := default plot_pca_kwargs_default pca_kwargs in
  dict_store kwl "n_components" (VInt pca_component);;;
  kw <- deref kwl;;
  _compute_means pca_weighted kw;;;
  if pca_weighted then pca_frame pca_component else attr plot_data.

(** Monadic map, for the list comprehensions of [bokeh]. *)
Fixpoint forM {A B} (l : list A) (body : A -> M B) : M (list B) :=
  match l with
  | [] => ret []
  | x :: l' => b <- body x;; bs <- forM l' body;; ret (b :: bs)
  end.

(** [max(l)] *)
Definition py_max (l : list Z) : result Z :=
  match l with
  | [] => raise ValueError
  | x :: l' => ok (fold_left Z.max l' x)
  end.

(** The columns of the marker source contributed by one [k]. *)
Record Markers : Type := {
  mk_x : list Z;
  mk_y : list Q;
  mk_size : list Q;
  mk_count : list Z;
  mk_ratio : list Q;
  mk_labels : list Z
}.

(** [r[3]] on a row of the transition table. *)
Definition first_count (r : CountRow) : result Z :=
  match cr_counts r with
  | [] => raise IndexError
  | c :: _ => ok c
  end.

Definition bokeh (size line_width : Q) (pca_weighted : bool)
    (pca_kwargs : option loc) (pca_component : Z) : M unit :=
  let kwl := default bokeh_pca_kwargs_default pca_kwargs in
  dict_store kwl "n_components" (VInt pca_component);;;
  kw <- deref kwl;;
  _compute_means pca_weighted kw;;;
  means <- (if pca_weighted then pca_frame pca_component else attr plot_data);;
  links <- (if pca_weighted then pca_links pca_component else attr link);;
  let total := df_len means in
  kr <- field k_range;;
  ks <- iter kr;;
  ms <- forM ks (fun i =>
    col <- lift (getitem means i);;
    let cl := value_counts col in
    u <- lift (py_div 50 (df_len means));;
    li <- lift (getitem links i);;
    lbls <- lift (mapM (ld_get li) (map fst cl));;
    ret {| mk_x := py_repeat i i;
           mk_y := map fst cl;
           mk_count := map snd cl;
           mk_ratio := map (fun c => inject_Z (snd c) / inject_Z total * 100)%Q cl;
           mk_size := map (fun c => inject_Z (snd c) * (u * size))%Q cl;
           mk_labels := lbls |});;
  stop <- lift (py_max ks);;
  forM_ ks (fun i =>
    if i <? stop then
      sub <- lift (groupby_count means i (i + 1));;
      forM_ sub (fun r =>
        c <- lift (first_count r);;
        u <- lift (py_div 50 (df_len means));;
        emit (EvFigLine i (i + 1) (cr_head r) (cr_tail r)
                        (inject_Z c * (u * line_width))%Q))
    else ret tt);;;
  emit (EvFigScatter (concat (map mk_x ms)) (concat (map mk_y ms))
                     (concat (map mk_size ms)) (concat (map mk_count ms))
                     (concat (map mk_ratio ms)) (concat (map mk_labels ms))).

End Positions.

(** ** Stratified transitions *)

(** One row of the stratified transition table, columns
    [i, i + 1, label_strata, count_strata, count_head, count_tail]. *)
Record StrataRow : Type := {
  sr_head : Q;
  sr_tail : Q;
  sr_label_strata : Z;
  sr_count_strata : Z;
  sr_count_head : Z;
  sr_count_tail : Z
}.

Definition Qstrata_cmp : Q * Q * Z -> Q * Q * Z -> comparison :=
  Key.lex Qpair_cmp Z.compare.

(** [left.merge(right, left_on=key, right_index=True)]: an inner join of
    the rows with the entries of [right] of equal key, in the order of
    the left rows. *)
Definition merge_count {R} (key : R -> Q) (rows : list R) (right : list (Q * Z))
    : list (R * Z) :=
  flat_map (fun r => map (fun e => (r, snd e))
                         (GroupBy.matching Qcompare (key r) right)) rows.

(** The table [sub] of the stratified branch: group sizes by
    (head, tail, stratum), joined with the totals per head and per tail.
    [means] is the frame of positions, [label_strata] the column added
    by [means.assign(label_strata=...)]. *)
Definition stratified_sub (means : DataFrame) (label_strata : list Z) (i : Z)
    : result (list StrataRow) :=
  rbind (getitem means i) (fun ca =>
  rbind (getitem means (i + 1)) (fun cb =>
  match df_others means [i; i + 1] with
  | [] => raise IndexError
  | _ :: _ =>
      let sub := GroupBy.sizes Qstrata_cmp (combine (combine ca cb) label_strata) in
      let count_head :=
        GroupBy.sums Qcompare (map (fun g => (fst (fst (fst g)), snd g)) sub) in
      let count_tail :=
        GroupBy.sums Qcompare (map (fun g => (snd (fst (fst g)), snd g)) sub) in
      ok (map (fun j =>
                 let g := fst (fst j) in
                 {| sr_head := fst (fst (fst g)); sr_tail := snd (fst (fst g));
                    sr_label_strata := snd (fst g); sr_count_strata := snd g;
                    sr_count_head := snd (fst j); sr_count_tail := snd j |})
              (merge_count (fun j => snd (fst (fst (fst j))))
                 (merge_count (fun g => fst (fst (fst g))) sub count_head)
                 count_tail))
  end)).

(** [frac_strata_in_head = count_strata / count_head] *)
Definition frac_strata_in_head (r : StrataRow) : Q :=
  (inject_Z (sr_count_strata r) / inject_Z (sr_count_head r))%Q.

(** A parallelogram handed to [ax.fill_between]. *)
Record Ribbon : Type := {
  rb_stratum : Z;
  rb_lower_left : Q;
  rb_lower_right : Q;
  rb_upper_left : Q;
  rb_upper_right : Q
}.

(** The running offsets of the loop over the rows of [sub]; the last
    head and tail start as NaN, which differs from every position. *)
Record Offsets : Type := {
  last_head : option Q;
  last_tail : option Q;
  head_offset : Q;
  tail_offset : Q
}.

Definition changed (last : option Q) (y : Q) : bool :=
  match last with
  | None => true
  | Some x => negb (Qeq_bool y x)
  end.

Definition ribbon_step (linewidth_dy : Q) (n : Z) (st : Offsets) (r : StrataRow)
    : Ribbon * Offsets :=
  let head_width := (linewidth_dy * (inject_Z (sr_count_head r) / inject_Z n))%Q in
  let tail_width := (linewidth_dy * (inject_Z (sr_count_tail r) / inject_Z n))%Q in
  let ho := if changed (last_head st) (sr_head r) then (head_width / 2)%Q
            else head_offset st in
  let to := if changed (last_tail st) (sr_tail r) then (tail_width / 2)%Q
            else tail_offset st in
  let pgram_height := (frac_strata_in_head r * head_width)%Q in
  ({| rb_stratum := sr_label_strata r;
      rb_lower_left := (sr_head r - ho)%Q;
      rb_lower_right := (sr_tail r - to)%Q;
      rb_upper_left := (sr_head r - ho + pgram_height)%Q;
      rb_upper_right := (sr_tail r - to + pgram_height)%Q |},
   {| last_head := Some (sr_head r); last_tail := Some (sr_tail r);
      head_offset := (ho - pgram_height)%Q; tail_offset := (to - pgram_height)%Q |}).

Fixpoint ribbons_from (linewidth_dy : Q) (n : Z) (st : Offsets) (sub : list StrataRow)
    : list Ribbon :=
  match sub with
  | [] => []
  | r :: sub' =>
      let '(rb, st') := ribbon_step linewidth_dy n st r in
      rb :: ribbons_from linewidth_dy n st' sub'
  end.

Definition ribbons (linewidth_dy : Q) (n : Z) (sub : list StrataRow) : list Ribbon :=
  ribbons_from linewidth_dy n
    {| last_head := None; last_tail := None; head_offset := 0; tail_offset := 0 |} sub.

(** The edges of the stratified table that leave the head position [h]. *)
Definition edges_from (h : Q) (sub : list StrataRow) : list StrataRow :=
  List.filter (fun e => Qeq_bool (sr_head e) h) sub.

(** ** Invariants of method calls *)

(** [preserves I c]: the world that [c] leaves behind satisfies [I]
    whenever the world it started in does, whether [c] returns or
    raises. *)
Definition preserves {A} (I : World -> Prop) (c : M A) : Prop :=
  forall w, I w -> I (snd (c w)).

(** The trace of [w] starts with [pre]. *)
Definition extends (pre : list event) (w : World) : Prop :=
  exists t, trace w = pre ++ t.



(** A render request on one object. *)
Inductive request : Type :=
| Plot (size linewidth : Q) (k_range_arg : option (list Z)) (pca_weighted : bool)
    (pca_kwargs : option loc) (pca_component : Z)
| Bokeh (size line_width : Q) (pca_weighted : bool)
    (pca_kwargs : option loc) (pca_component : Z).

Definition requested (r : request) : Z :=
  match r with
  | Plot _ _ _ _ _ c => c
  | Bokeh _ _ _ _ c => c
  end.

Definition weighted (r : request) : bool :=
  match r with
  | Plot _ _ _ pw _ _ => pw
  | Bokeh _ _ pw _ _ => pw
  end.

Definition render (C : Collaborators) (r : request) : M unit :=
  match r with
  | Plot size linewidth k_range_arg pw kw c => plot C size linewidth k_range_arg pw kw c
  | Bokeh size line_width pw kw c => bokeh C size line_width pw kw c
  end.




(** The feature dimensionality [D] of a dataset, [data.shape[1]]. *)
Definition n_features (X : Data) : Z :=
  match X with
  | [] => 0
  | row :: _ => Z.of_nat (length row)
  end.

(** A PCA collaborator that rejects a component count above the feature
    dimensionality with [ValueError], as the estimators do. *)
Definition rejects_excess (C : Collaborators) : Prop :=
  forall cuml kw X n,
    kw !! "n_components" = Some (VInt n) -> n > n_features X ->
    PCA_fit C cuml kw X = inl ValueError.

(** The cached frames of positions only have columns of the sweep. *)
Definition cache_wf (sweep : list Z) (o : Clustergram) : Prop :=
  (forall pd c, plot_data o = Some pd -> In c (od_keys pd) -> In c sweep)
  /\ (forall pdp n f c, plot_data_pca o = Some pdp -> pdp !! n = Some f ->
                      In c (od_keys f) -> In c sweep).

(** What a fit keeps once it has read its keyword arguments: the
    configuration of the object and the calls made so far. *)
Definition configured (kw : gmap string pyval) (b : option string) (m : string)
    (pre : list event) (w : World) : Prop :=
  kwargs (self w) = kw /\ backend (self w) = b /\ method (self w) = m
  /\ extends pre w.

(** A call of a k-means estimator for a single cluster. *)
Definition fits_k1 (e : event) : bool :=
  match e with
  | EvKMeans _ n | EvCuKMeans n => Z.eqb n 1
  | _ => false
  end.

(** The calls made since [pre] include no k-means fit for k = 1. *)
Definition skips_k1 (pre : list event) (w : World) : Prop :=
  exists t, trace w = pre ++ t /\ Forall (fun e => fits_k1 e = false) t.

(** The configurations that [fit] hands to a k-means routine. *)
Definition kmeans_config (b : option string) (m : string) : Prop :=
  ((b = None \/ b = Some "sklearn") /\ (m = "kmeans" \/ m = "minibatchkmeans"))
  \/ (b = Some "cuML" /\ m = "kmeans").

(** What the k-means routines store for k = 1: label 0 for every
    observation and the feature-wise mean of the data as only centre. *)
Definition k1_stored (X : Data) (w : World) : Prop :=
  exists lab cc,
    labels (self w) = Some lab /\ cluster_centers (self w) = Some cc
    /\ od_get lab 1 = Some (py_repeat 0 (Z.of_nat (length X)))
    /\ od_get cc 1 = Some [mean_axis0 X].

(** Equality of centres up to the equality of rationals. *)
Definition centers_eq (a b : Centers) : Prop := Forall2 (Forall2 Qeq) a b.

(** One iteration of the loop of a k-means routine over the sweep, on an
    estimator [est] whose call is recorded as [ev n]; [_kmeans_sklearn]
    and [_kmeans_cuml] both loop over this step. *)
Definition kmeans_step (X : Data) (ev : Z -> event)
    (est : Z -> gmap string pyval -> result (list Z * Centers)) (n : Z) : M unit :=
  if Z.eqb n 1 then
    setitem labels set_labels n (py_repeat 0 (Z.of_nat (length X)));;;
    setitem cluster_centers set_cluster_centers n [mean_axis0 X]
  else
    kw <- field kwargs;;
    emit (ev n);;;
    res <- lift (est n kw);;
    setitem labels set_labels n (fst res);;;
    setitem cluster_centers set_cluster_centers n (snd res).

(** A clustergram over the sweep [sweep] whose caches are well formed. *)
Definition swept (sweep : list Z) (w : World) : Prop :=
  k_range (self w) = Some sweep /\ cache_wf sweep (self w).

(** The position of observation [j] at cluster count [k] in a frame. *)
Definition position (df : DataFrame) (k : Z) (j : nat) : option Q :=
  match od_get df k with
  | Some col => nth_error col j
  | None => None
  end.

(** The transition lines among the calls made to a canvas. *)
Definition is_line (e : event) : bool :=
  match e with
  | EvPlot _ _ _ _ _ | EvFigLine _ _ _ _ _ => true
  | _ => false
  end.

Definition is_marker (e : event) : bool :=
  match e with
  | EvScatter _ _ _ | EvFigScatter _ _ _ _ _ _ => true
  | _ => false
  end.

(** ** Fixtures *)

(** Collaborators that are never reached: every estimator refuses. *)
Definition no_collaborators : Collaborators :=
  {| KMeans_fit := fun _ _ _ _ _ => raise ValueError;
     cuKMeans_fit := fun _ _ _ _ => raise ValueError;
     GaussianMixture_fit := fun _ _ _ _ => raise ValueError;
     logpdf := fun _ _ _ => raise ValueError;
     hierarchy_linkage := fun _ _ _ => raise ValueError;
     to_tree_dists := fun _ => [];
     fcluster := fun _ _ => [];
     PCA_fit := fun _ _ _ => raise ValueError |}.

(** The unit vector of axis [i] among [d] features. *)
Definition unit_vector (d i : nat) : list Q :=
  map (fun j => if Nat.eqb i j then 1%Q else 0%Q) (seq 0 d).

(** A stand-in for PCA whose components are the coordinate axes; it
    refuses more components than there are features. *)
Definition axis_pca : Collaborators :=
  {| KMeans_fit := fun _ _ _ _ _ => raise ValueError;
     cuKMeans_fit := fun _ _ _ _ => raise ValueError;
     GaussianMixture_fit := fun _ _ _ _ => raise ValueError;
     logpdf := fun _ _ _ => raise ValueError;
     hierarchy_linkage := fun _ _ _ => raise ValueError;
     to_tree_dists := fun _ => [];
     fcluster := fun _ _ => [];
     PCA_fit := fun _ kw X =>
       match kw !! "n_components" with
       | Some (VInt n) =>
           if n >? n_features X then raise ValueError
           else ok (map (unit_vector (Z.to_nat (n_features X))) (seq 0 (Z.to_nat n)))
       | _ => raise TypeError
       end |}.

(** A stand-in for the Gaussian mixture: every component is centred at
    the sample mean, and the density of an observation decreases with
    its squared distance to that mean. *)
Definition sqdist (u v : list Q) : Q :=
  Qsum (map (fun p => (fst p - snd p) * (fst p - snd p))%Q (combine u v)).

Definition mean_gmm : Collaborators :=
  {| KMeans_fit := fun _ _ _ _ _ => raise ValueError;
     cuKMeans_fit := fun _ _ _ _ => raise ValueError;
     GaussianMixture_fit := fun n _ X _ =>
       ok {| n_components := n;
             means_ := repeat (mean_axis0 X) (Z.to_nat n);
             covariances_ := repeat [[1%Q]] (Z.to_nat n);
             predict := map (fun _ => 0) X;
             gmm_bic := 0%Q |};
     logpdf := fun _ mean X => ok (map (fun x => (- sqdist x mean)%Q) X);
     hierarchy_linkage := fun _ _ _ => raise ValueError;
     to_tree_dists := fun _ => [];
     fcluster := fun _ _ => [];
     PCA_fit := fun _ _ _ => raise ValueError |}.

(** A stand-in for the hierarchy of three observations that merge at
    distances 1 and 2. *)
Definition toy_hierarchy : Collaborators :=
  {| KMeans_fit := fun _ _ _ _ _ => raise ValueError;
     cuKMeans_fit := fun _ _ _ _ => raise ValueError;
     GaussianMixture_fit := fun _ _ _ _ => raise ValueError;
     logpdf := fun _ _ _ => raise ValueError;
     hierarchy_linkage := fun _ _ _ => ok [[0; 1; 1; 2]; [2; 3; 2; 3]]%Q;
     to_tree_dists := fun _ => [0; 0; 0; 1; 2]%Q;
     fcluster := fun _ d =>
       match (d ?= 2)%Q with
       | Lt => [1; 1; 2]
       | _ => [1; 1; 1]
       end;
     PCA_fit := fun _ _ _ => raise ValueError |}.

(** A stand-in for k-means that puts every observation in cluster 0 and
    every centre at the origin. *)
Definition toy_kmeans : Collaborators :=
  {| KMeans_fit := fun _ n _ X _ =>
       ok (map (fun _ => 0) X, repeat (map (fun _ => 0%Q) (hd [] X)) (Z.to_nat n));
     cuKMeans_fit := fun n _ X _ =>
       ok (map (fun _ => 0) X, repeat (map (fun _ => 0%Q) (hd [] X)) (Z.to_nat n));
     GaussianMixture_fit := fun _ _ _ _ => raise ValueError;
     logpdf := fun _ _ _ => raise ValueError;
     hierarchy_linkage := fun _ _ _ => raise ValueError;
     to_tree_dists := fun _ => [];
     fcluster := fun _ _ => [];
     PCA_fit := fun _ _ _ => raise ValueError |}.

(** A fresh interpreter state around an object: the two default
    [pca_kwargs] dictionaries are empty and nothing has been called. *)
Definition world_of (o : Clustergram) : World :=
  {| self := o;
     heap := {[ 1%positive := ∅; 2%positive := ∅ ]};
     trace := [] |}.

(** The labels and centres of the docstring of [from_centers]. *)
Definition example_labels : LabelFrame :=
  [(1, [0; 0; 0]); (2, [0; 0; 1]); (3, [0; 2; 1])].

Definition example_data : Data := [[-1; -1]; [1; 1]; [0; 0]]%Q.

(** A sweep with a gap: cluster counts 2 and 4 over four observations. *)
Definition gap_labels : LabelFrame := [(2, [0; 0; 1; 1]); (4, [0; 1; 2; 3])].

Definition gap_centers : odict Centers :=
  [(2, [[-1; -1]; [1; 1]]%Q); (4, [[-2; -2]; [-1; -1]; [1; 1]; [2; 2]]%Q)].

Definition example_centers : odict Centers :=
  [(1, [[0; 0]]%Q); (2, [[-1; -1]; [1; 1]]%Q); (3, [[-1; -1]; [1; 1]; [0; 0]]%Q)].

(** * Properties *)

(** ** Comparisons *)

Lemma Qcompare_lawful : Key.lawful Qcompare.
Proof.
  split.
  - intros a b c H. apply Qeq_alt in H. now rewrite H.
  - intros a b. symmetry. apply Qcompare_antisym.
  - intros a b c H1 H2. apply Qlt_alt. apply Qlt_alt in H1, H2.
    eapply Qlt_trans; eauto.
Qed.

Lemma Zcompare_lawful : Key.lawful Z.compare.
Proof.
  split.
  - intros a b c H. apply Z.compare_eq in H. now subst.
  - intros a b. apply Z.compare_antisym.
  - intros a b c H1 H2. rewrite Z.compare_lt_iff in *. lia.
Qed.

Section KeyFacts.

Context {K : Type} (cmp : K -> K -> comparison) (L : Key.lawful cmp).

Lemma cmp_refl a : cmp a a = Eq.
Proof.
  pose proof (Key.cmp_opp cmp L a a) as H.
  destruct (cmp a a); simpl in H; congruence.
Qed.

Lemma cmp_sym a b : cmp a b = Eq -> cmp b a = Eq.
Proof. intros H. rewrite (Key.cmp_opp cmp L a b), H. reflexivity. Qed.

Lemma cmp_cong_r a b c : cmp a b = Eq -> cmp c a = cmp c b.
Proof.
  intros H. rewrite (Key.cmp_opp cmp L a c), (Key.cmp_opp cmp L b c).
  f_equal. now apply (Key.cmp_cong cmp L).
Qed.

Lemma eqb_cong a b h : cmp a b = Eq -> Key.eqb cmp a h = Key.eqb cmp b h.
Proof. intros H. unfold Key.eqb. now rewrite (Key.cmp_cong cmp L a b h H). Qed.

Lemma eqb_cong_r a b h : cmp a b = Eq -> Key.eqb cmp h a = Key.eqb cmp h b.
Proof. intros H. unfold Key.eqb. now rewrite (cmp_cong_r a b h H). Qed.

Lemma eqb_sym a b : Key.eqb cmp a b = Key.eqb cmp b a.
Proof.
  unfold Key.eqb. rewrite (Key.cmp_opp cmp L b a).
  destruct (cmp b a); reflexivity.
Qed.

End KeyFacts.

Lemma lex_lawful {A B} (ca : A -> A -> comparison) (cb : B -> B -> comparison) :
  Key.lawful ca -> Key.lawful cb -> Key.lawful (Key.lex ca cb).
Proof.
  intros La Lb. split.
  - intros [a1 a2] [b1 b2] [c1 c2]. unfold Key.lex. simpl.
    destruct (ca a1 b1) eqn:E1; try discriminate. intros E2.
    rewrite (Key.cmp_cong ca La _ _ c1 E1).
    destruct (ca b1 c1); auto. now apply (Key.cmp_cong cb Lb).
  - intros [a1 a2] [b1 b2]. unfold Key.lex. simpl.
    rewrite (Key.cmp_opp ca La a1 b1).
    destruct (ca a1 b1); simpl; auto. apply (Key.cmp_opp cb Lb).
  - intros [a1 a2] [b1 b2] [c1 c2]. unfold Key.lex. simpl.
    destruct (ca a1 b1) eqn:E1; try discriminate.
    + rewrite (Key.cmp_cong ca La _ _ c1 E1). intros H1.
      destruct (ca b1 c1); auto. intros H2.
      eapply (Key.cmp_lt_trans cb Lb); eauto.
    + intros _. destruct (ca b1 c1) eqn:E2; try discriminate.
      * intros _. rewrite <- (cmp_cong_r ca La _ _ a1 E2). now rewrite E1.
      * intros _. now rewrite (Key.cmp_lt_trans ca La _ _ _ E1 E2).
Qed.

(** ** Grouping *)

Section GroupFacts.

Context {K : Type} (cmp : K -> K -> comparison).

Lemma total_add k w gs :
  GroupBy.total (GroupBy.add cmp k w gs) = GroupBy.total gs + w.
Proof.
  induction gs as [|[k' c] gs IH]; simpl; [lia|].
  destruct (cmp k k'); simpl; lia.
Qed.

Lemma total_sums_from rows gs :
  GroupBy.total (fold_left (fun gs r => GroupBy.add cmp (fst r) (snd r) gs) rows gs)
  = GroupBy.total gs + GroupBy.total rows.
Proof.
  revert gs. induction rows as [|r rows IH]; intros gs; simpl; [lia|].
  rewrite IH, total_add. lia.
Qed.

Lemma total_sums rows : GroupBy.total (GroupBy.sums cmp rows) = GroupBy.total rows.
Proof. unfold GroupBy.sums. rewrite total_sums_from. reflexivity. Qed.

(** The group sizes add up to the number of grouped rows. *)
Lemma total_sizes (keys : list K) :
  GroupBy.total (GroupBy.sizes cmp keys) = Z.of_nat (length keys).
Proof.
  unfold GroupBy.sizes. rewrite total_sums.
  induction keys as [|k keys IH]; simpl length; [reflexivity|].
  simpl. rewrite IH. lia.
Qed.

Context (L : Key.lawful cmp).

Lemma weight_at_add h k w gs :
  GroupBy.weight_at cmp h (GroupBy.add cmp k w gs)
  = GroupBy.weight_at cmp h gs + (if Key.eqb cmp k h then w else 0).
Proof.
  induction gs as [|[k' c] gs IH]; simpl.
  - destruct (Key.eqb cmp k h); lia.
  - destruct (cmp k k') eqn:E; simpl.
    + rewrite (eqb_cong cmp L k k' h E). destruct (Key.eqb cmp k' h); lia.
    + destruct (Key.eqb cmp k h), (Key.eqb cmp k' h); lia.
    + rewrite IH. destruct (Key.eqb cmp k h), (Key.eqb cmp k' h); lia.
Qed.

Lemma weight_at_sums_from h rows gs :
  GroupBy.weight_at cmp h
    (fold_left (fun gs r => GroupBy.add cmp (fst r) (snd r) gs) rows gs)
  = GroupBy.weight_at cmp h gs + GroupBy.weight_at cmp h rows.
Proof.
  revert gs. induction rows as [|r rows IH]; intros gs; simpl; [lia|].
  rewrite IH, weight_at_add. destruct (Key.eqb cmp (fst r) h); lia.
Qed.

(** Grouping keeps the weight found at every key. *)
Lemma weight_at_sums h rows :
  GroupBy.weight_at cmp h (GroupBy.sums cmp rows) = GroupBy.weight_at cmp h rows.
Proof. unfold GroupBy.sums. rewrite weight_at_sums_from. reflexivity. Qed.

Lemma above_add a k w gs :
  cmp a k = Lt -> GroupBy.above cmp a gs -> GroupBy.above cmp a (GroupBy.add cmp k w gs).
Proof.
  revert a. induction gs as [|[k' c] gs IH]; intros a Hak Ha; simpl.
  - auto.
  - destruct Ha as [Hk' Hgs]. destruct (cmp k k') eqn:E; simpl.
    + auto.
    + auto.
    + split; auto. apply IH; auto.
      rewrite (Key.cmp_opp cmp L k k'), E. reflexivity.
Qed.

Lemma increasing_add k w gs :
  GroupBy.increasing cmp gs -> GroupBy.increasing cmp (GroupBy.add cmp k w gs).
Proof.
  destruct gs as [|[k' c] gs]; simpl; auto.
  intros H. destruct (cmp k k') eqn:E; simpl; auto.
  apply above_add; auto.
  rewrite (Key.cmp_opp cmp L k k'), E. reflexivity.
Qed.

Lemma increasing_sums_from rows gs :
  GroupBy.increasing cmp gs ->
  GroupBy.increasing cmp (fold_left (fun gs r => GroupBy.add cmp (fst r) (snd r) gs) rows gs).
Proof.
  revert gs. induction rows as [|r rows IH]; intros gs H; simpl; auto.
  apply IH, increasing_add, H.
Qed.

Lemma increasing_sums rows : GroupBy.increasing cmp (GroupBy.sums cmp rows).
Proof. apply increasing_sums_from. exact I. Qed.

Lemma above_lt a gs k c : GroupBy.above cmp a gs -> In (k, c) gs -> cmp a k = Lt.
Proof.
  revert a. induction gs as [|[k' c'] gs IH]; intros a Ha Hin; [contradiction|].
  destruct Ha as [H1 H2]. destruct Hin as [Heq|Hin].
  - now inversion Heq; subst.
  - eapply (Key.cmp_lt_trans cmp L); eauto.
Qed.

Lemma not_above_match a gs h k c :
  GroupBy.above cmp a gs -> cmp h a <> Gt -> In (k, c) gs -> Key.eqb cmp k h = false.
Proof.
  intros Ha Hh Hin.
  pose proof (above_lt a gs k c Ha Hin) as Hlt.
  unfold Key.eqb. destruct (cmp k h) eqn:E; auto. exfalso.
  destruct (cmp h a) eqn:E2; try congruence.
  - rewrite (cmp_cong_r cmp L k h a E), (cmp_sym cmp L _ _ E2) in Hlt.
    discriminate.
  - pose proof (Key.cmp_lt_trans cmp L _ _ _ E2 Hlt) as H3.
    rewrite (cmp_sym cmp L _ _ E) in H3. discriminate.
Qed.

Lemma matching_above a gs h :
  GroupBy.above cmp a gs -> cmp h a <> Gt -> GroupBy.matching cmp h gs = [].
Proof.
  intros Ha Hh. unfold GroupBy.matching.
  induction gs as [|[k c] gs IH]; [reflexivity|].
  simpl. rewrite (not_above_match a _ h k c Ha Hh (or_introl eq_refl)).
  destruct Ha as [H1 H2]. destruct gs as [|[k2 c2] gs2]; [reflexivity|].
  apply IH. destruct H2 as [H2 H3]. split; auto.
  eapply (Key.cmp_lt_trans cmp L); eauto.
Qed.

(** An increasing list of groups has at most one entry per key, and
    that entry carries the whole weight of the key. *)
Lemma matching_increasing h gs :
  GroupBy.increasing cmp gs ->
  GroupBy.matching cmp h gs = []
  \/ exists k, GroupBy.matching cmp h gs = [(k, GroupBy.weight_at cmp h gs)].
Proof.
  induction gs as [|[k c] gs IH]; [now left|].
  intros Hinc. simpl in Hinc. unfold GroupBy.matching in *. simpl.
  destruct (Key.eqb cmp k h) eqn:E.
  - right. exists k.
    assert (Heq : cmp h k = Eq).
    { rewrite (eqb_sym cmp L) in E. unfold Key.eqb in E.
      destruct (cmp h k); congruence. }
    assert (Hm : GroupBy.matching cmp h gs = []).
    { apply (matching_above k); auto. congruence. }
    unfold GroupBy.matching in Hm. rewrite Hm.
    assert (Hw : GroupBy.weight_at cmp h gs = 0).
    { clear -Hinc Heq L. revert Hinc.
      assert (G : forall a, GroupBy.above cmp a gs -> cmp h a <> Gt ->
                            GroupBy.weight_at cmp h gs = 0).
      { induction gs as [|[k2 c2] gs2 IH2]; intros a Ha Hh; [reflexivity|].
        simpl. rewrite (not_above_match a _ h k2 c2 Ha Hh (or_introl eq_refl)).
        destruct Ha as [H1 H2]. destruct gs2 as [|[k3 c3] gs3]; [reflexivity|].
        apply (IH2 a). destruct H2 as [H2 H3]. split; auto.
        eapply (Key.cmp_lt_trans cmp L); eauto. auto. }
      intros Hinc. apply (G k); auto. congruence. }
    rewrite Hw. f_equal. f_equal. lia.
  - apply IH. destruct gs as [|[k2 c2] gs2]; simpl; auto.
    now destruct Hinc.
Qed.

Lemma weight_at_matching h gs :
  GroupBy.total (GroupBy.matching cmp h gs) = GroupBy.weight_at cmp h gs.
Proof.
  unfold GroupBy.matching.
  induction gs as [|[k c] gs IH]; [reflexivity|].
  simpl. destruct (Key.eqb cmp k h); simpl; lia.
Qed.

End GroupFacts.

Lemma Qeq_bool_eqb x y : Qeq_bool x y = Key.eqb Qcompare x y.
Proof.
  unfold Key.eqb. destruct (Qcompare x y) eqn:E.
  - apply Qeq_bool_iff. now apply Qeq_alt.
  - destruct (Qeq_bool x y) eqn:B; auto.
    apply Qeq_bool_iff, Qeq_alt in B. congruence.
  - destruct (Qeq_bool x y) eqn:B; auto.
    apply Qeq_bool_iff, Qeq_alt in B. congruence.
Qed.

Section JoinFacts.

Context {K : Type} (cmp : K -> K -> comparison) (L : Key.lawful cmp).

Lemma positive_add k w gs :
  0 < w -> GroupBy.positive_weights gs -> GroupBy.positive_weights (GroupBy.add cmp k w gs).
Proof.
  intros Hw. unfold GroupBy.positive_weights.
  induction gs as [|[k' c] gs IH]; intros H; simpl.
  - constructor; auto.
  - inversion H as [|? ? Hc Hgs]; subst. simpl in Hc.
    destruct (cmp k k'); constructor; simpl; auto; lia.
Qed.

Lemma positive_sums_from rows gs :
  GroupBy.positive_weights rows -> GroupBy.positive_weights gs ->
  GroupBy.positive_weights (fold_left (fun gs r => GroupBy.add cmp (fst r) (snd r) gs) rows gs).
Proof.
  revert gs. induction rows as [|r rows IH]; intros gs Hr Hg; simpl; auto.
  inversion Hr; subst. apply IH; auto. apply positive_add; auto.
Qed.

Lemma positive_sizes (keys : list K) : GroupBy.positive_weights (GroupBy.sizes cmp keys).
Proof.
  apply positive_sums_from; [|constructor].
  unfold GroupBy.positive_weights. apply List.Forall_forall. intros g Hin.
  apply in_map_iff in Hin. destruct Hin as [k [<- _]]. simpl. lia.
Qed.

Lemma weight_at_nonneg h l : GroupBy.positive_weights l -> 0 <= GroupBy.weight_at cmp h l.
Proof.
  induction 1 as [|g l Hg Hl IH]; simpl; [lia|].
  destruct (Key.eqb cmp (fst g) h); lia.
Qed.

Lemma weight_at_member h l g :
  GroupBy.positive_weights l -> In g l -> Key.eqb cmp (fst g) h = true ->
  0 < GroupBy.weight_at cmp h l.
Proof.
  induction 1 as [|g' l Hg Hl IH]; intros Hin He; [contradiction|].
  simpl. destruct Hin as [->|Hin].
  - rewrite He. pose proof (weight_at_nonneg h l Hl). lia.
  - specialize (IH Hin He). destruct (Key.eqb cmp (fst g') h); lia.
Qed.

Lemma weight_at_cong h1 h2 l :
  cmp h1 h2 = Eq -> GroupBy.weight_at cmp h1 l = GroupBy.weight_at cmp h2 l.
Proof.
  intros H. induction l as [|g l IH]; [reflexivity|].
  simpl. rewrite IH, (eqb_cong_r cmp L h1 h2 (fst g) H). reflexivity.
Qed.

(** Joining rows with the per-key totals of these same rows finds
    exactly one total for each row. *)
Lemma matching_own_sums (rows : list (K * Z)) g :
  GroupBy.positive_weights rows -> In g rows ->
  exists k, GroupBy.matching cmp (fst g) (GroupBy.sums cmp rows)
            = [(k, GroupBy.weight_at cmp (fst g) rows)].
Proof.
  intros Hpos Hin.
  destruct (matching_increasing cmp L (fst g) (GroupBy.sums cmp rows)
              (increasing_sums cmp L rows)) as [Hnil|[k Hk]].
  - exfalso.
    pose proof (weight_at_matching cmp (fst g) (GroupBy.sums cmp rows)) as Hw.
    rewrite Hnil, (weight_at_sums cmp L) in Hw. simpl in Hw.
    assert (Hp : 0 < GroupBy.weight_at cmp (fst g) rows).
    { apply (weight_at_member (fst g) rows g Hpos Hin).
      unfold Key.eqb. now rewrite (cmp_refl cmp L). }
    lia.
  - exists k. rewrite Hk, (weight_at_sums cmp L). reflexivity.
Qed.

End JoinFacts.

Lemma merge_count_unique {R} (key : R -> Q) (wfun : R -> Z) (rows : list R) right :
  (forall r, In r rows ->
     exists k, GroupBy.matching Qcompare (key r) right = [(k, wfun r)]) ->
  merge_count key rows right = map (fun r => (r, wfun r)) rows.
Proof.
  unfold merge_count. induction rows as [|r rows IH]; intros H; [reflexivity|].
  simpl. destruct (H r (or_introl eq_refl)) as [k Hk]. rewrite Hk. simpl.
  f_equal. apply IH. intros r' Hr'. apply H. now right.
Qed.

(** Joining a table with the per-key totals of its own rows attaches to
    each row the total of its key. *)
Lemma merge_own_totals {R S} (f : R -> S) (key : S -> Q) (wt : R -> Z) (base : list R) :
  (forall r, In r base -> 0 < wt r) ->
  merge_count key (map f base)
    (GroupBy.sums Qcompare (map (fun r => (key (f r), wt r)) base))
  = map (fun r => (f r, GroupBy.weight_at Qcompare (key (f r))
                          (map (fun r => (key (f r), wt r)) base))) base.
Proof.
  intros Hpos.
  rewrite (merge_count_unique key
             (fun s => GroupBy.weight_at Qcompare (key s)
                         (map (fun r => (key (f r), wt r)) base))).
  - now rewrite List.map_map.
  - intros s Hs. apply List.in_map_iff in Hs. destruct Hs as [r [<- Hr]].
    apply (matching_own_sums Qcompare Qcompare_lawful
             (map (fun r => (key (f r), wt r)) base) (key (f r), wt r)).
    + apply List.Forall_forall. intros g Hg. apply List.in_map_iff in Hg.
      destruct Hg as [r' [<- Hr']]. simpl. auto.
    + apply List.in_map_iff. exists r. auto.
Qed.

(** ** Stratified transitions *)

Section StratifiedFacts.

Local Abbreviation group := (Q * Q * Z * Z)%type.
Local Abbreviation g_head g := (fst (fst (fst g))).
Local Abbreviation g_tail g := (snd (fst (fst g))).

(** The rows of the stratified table, one per (head, tail, stratum)
    group, with the totals spelled out. *)
Lemma stratified_sub_rows means strata i sub :
  stratified_sub means strata i = inr sub ->
  exists base : list group,
    GroupBy.positive_weights base /\
    sub = map (fun g =>
                 {| sr_head := g_head g; sr_tail := g_tail g;
                    sr_label_strata := snd (fst g); sr_count_strata := snd g;
                    sr_count_head :=
                      GroupBy.weight_at Qcompare (g_head g)
                        (map (fun g => (g_head g, snd g)) base);
                    sr_count_tail :=
                      GroupBy.weight_at Qcompare (g_tail g)
                        (map (fun g => (g_tail g, snd g)) base) |}) base.
Proof.
  unfold stratified_sub, rbind. intros H.
  destruct (getitem means i) as [|ca]; [discriminate|].
  destruct (getitem means (i + 1)) as [|cb]; [discriminate|].
  destruct (df_others means [i; i + 1]); [discriminate|].
  injection H as <-.
  set (base := GroupBy.sizes Qstrata_cmp (combine (combine ca cb) strata)).
  assert (Hpos : GroupBy.positive_weights base) by apply positive_sizes.
  exists base. split; [exact Hpos|].
  assert (Hw : forall g, In g base -> 0 < snd g).
  { intros g Hg. unfold GroupBy.positive_weights in Hpos.
    rewrite List.Forall_forall in Hpos. auto. }
  pose proof (merge_own_totals (fun g : group => g) (fun g => g_head g) snd base Hw) as M1.
  rewrite List.map_id in M1. rewrite M1.
  pose proof (merge_own_totals
                (fun g : group =>
                   (g, GroupBy.weight_at Qcompare (g_head g)
                         (map (fun g => (g_head g, snd g)) base)))
                (fun j => snd (fst (fst (fst j)))) snd base Hw) as M2.
  simpl in M2. rewrite M2.
  rewrite List.map_map. reflexivity.
Qed.


Lemma Zsum_edges (mk : group -> StrataRow) (base : list group) h :
  (forall g, sr_head (mk g) = g_head g) ->
  (forall g, sr_count_strata (mk g) = snd g) ->
  Zsum (map sr_count_strata (edges_from h (map mk base)))
  = GroupBy.weight_at Qcompare h (map (fun g => (g_head g, snd g)) base).
Proof.
  intros Hh Hc. unfold edges_from.
  induction base as [|g base IH]; [reflexivity|].
  simpl. rewrite Hh, Qeq_bool_eqb.
  destruct (Key.eqb Qcompare (g_head g) h); simpl; rewrite IH, ?Hc; reflexivity.
Qed.

Lemma Qsum_fractions (W : Z) (l : list StrataRow) :
  (forall e, In e l -> sr_count_head e = W) ->
  (Qsum (map frac_strata_in_head l)
   == inject_Z (Zsum (map sr_count_strata l)) / inject_Z W)%Q.
Proof.
  induction l as [|e l IH]; intros H; simpl.
  - unfold Qdiv. now rewrite Qmult_0_l.
  - rewrite IH by (intros; apply H; now right).
    unfold frac_strata_in_head. rewrite (H e (or_introl eq_refl)).
    rewrite inject_Z_plus. unfold Qdiv. ring.
Qed.

Lemma Zsum_positive (l : list StrataRow) :
  (forall e, In e l -> 0 < sr_count_strata e) -> l <> [] ->
  0 < Zsum (map sr_count_strata l).
Proof.
  destruct l as [|e l]; [congruence|]. intros H _.
  assert (G : 0 <= Zsum (map sr_count_strata l)).
  { assert (Hl : forall e, In e l -> 0 < sr_count_strata e) by (intros; apply H; now right).
    clear H. induction l as [|e' l IH]; simpl; [lia|].
    pose proof (Hl e' (or_introl eq_refl)).
    assert (0 <= Zsum (map sr_count_strata l)) by (apply IH; intros; apply Hl; now right).
    lia. }
  simpl. pose proof (H e (or_introl eq_refl)). lia.
Qed.

End StratifiedFacts.

(** C4. In the stratified transition table between [i] and [i + 1], the
    stratum counts of the edges that leave one head position add up to
    the head total carried by each of these edges, and their fractions
    of the head add up to one (positions and fractions are exact
    rationals here, so the sum is exactly one). *)
Theorem stratified_head_totals (means : DataFrame) (strata : list Z) (i : Z)
    (sub : list StrataRow) (h : Q) :
  stratified_sub means strata i = inr sub ->
  (forall e, In e (edges_from h sub) ->
     Zsum (map sr_count_strata (edges_from h sub)) = sr_count_head e)
  /\ (edges_from h sub <> [] ->
      (Qsum (map frac_strata_in_head (edges_from h sub)) == 1)%Q).
Proof.
  intros Hsub.
  destruct (stratified_sub_rows means strata i sub Hsub) as [base [Hpos ->]].
  set (Hs := map (fun g : Q * Q * Z * Z => (fst (fst (fst g)), snd g)) base).
  set (mk := fun g : Q * Q * Z * Z => _).
  assert (Hsum : Zsum (map sr_count_strata (edges_from h (map mk base)))
                 = GroupBy.weight_at Qcompare h Hs).
  { apply Zsum_edges; reflexivity. }
  assert (Hhead : forall e, In e (edges_from h (map mk base)) ->
                            sr_count_head e = GroupBy.weight_at Qcompare h Hs).
  { intros e He. unfold edges_from in He. apply List.filter_In in He.
    destruct He as [Hin Heq]. apply List.in_map_iff in Hin.
    destruct Hin as [g [<- Hg]]. simpl in *.
    apply (weight_at_cong Qcompare Qcompare_lawful).
    apply Qeq_alt. now apply Qeq_bool_iff. }
  split.
  - intros e He. rewrite Hsum. symmetry. now apply Hhead.
  - intros Hne. rewrite (Qsum_fractions _ _ Hhead), Hsum.
    assert (Hp : 0 < GroupBy.weight_at Qcompare h Hs).
    { rewrite <- Hsum. apply Zsum_positive; auto.
      intros e He. unfold edges_from in He. apply List.filter_In in He.
      destruct He as [Hin _]. apply List.in_map_iff in Hin.
      destruct Hin as [g [<- Hg]]. simpl.
      unfold GroupBy.positive_weights in Hpos.
      rewrite List.Forall_forall in Hpos. auto. }
    apply Qmult_inv_r. intros Hz.
    assert (Hz' : GroupBy.weight_at Qcompare h Hs = 0).
    { apply inject_Z_injective. exact Hz. }
    lia.
Qed.

(** The statement instantiated on a sweep of three cluster counts with
    two strata. *)
Lemma stratified_head_totals_witness :
  exists sub,
    stratified_sub [(1, [0; 0; 0]%Q); (2, [-1; -1; 1]%Q); (3, [-1; 0; 1]%Q)] [0; 0; 1] 2
    = inr sub
    /\ (forall e, In e (edges_from (-1) sub) ->
          Zsum (map sr_count_strata (edges_from (-1) sub)) = sr_count_head e)
    /\ (edges_from (-1) sub <> [] ->
        (Qsum (map frac_strata_in_head (edges_from (-1) sub)) == 1)%Q).
Proof.
  eexists. split; [vm_compute; reflexivity|].
  apply (stratified_head_totals
           [(1, [0; 0; 0]%Q); (2, [-1; -1; 1]%Q); (3, [-1; 0; 1]%Q)] [0; 0; 1] 2).
  vm_compute. reflexivity.
Defined.

(** ** Transition aggregation *)

Lemma mapM_map_ok {A B X} (f : A -> result B) (g : X -> A) (h : X -> B) (l : list X) :
  (forall x, f (g x) = inr (h x)) -> mapM f (map g l) = inr (map h l).
Proof.
  intros H. induction l as [|x l IH]; [reflexivity|].
  simpl. rewrite H. simpl. rewrite IH. reflexivity.
Qed.

Lemma rev_constant (z : Z) (l : list Z) :
  rev (map (fun _ : Z => z) l) = map (fun _ : Z => z) l.
Proof.
  induction l as [|x l IH]; [reflexivity|].
  simpl. rewrite IH. clear IH.
  induction l as [|y l IH]; [reflexivity|].
  simpl. now rewrite IH.
Qed.

Lemma total_Zsum {K} (gs : list (K * Z)) : GroupBy.total gs = Zsum (map snd gs).
Proof. induction gs as [|g gs IH]; simpl; [reflexivity|]. now rewrite IH. Qed.

(** When the frame of positions has a column besides the two grouped
    ones, every row of the transition table carries a count, and the
    counts read by either renderer add up to the number of observations. *)
Lemma transition_counts_sum (means : DataFrame) (a b : Z) (ca cb : list Q)
    (rows : list CountRow) :
  od_get means a = Some ca -> od_get means b = Some cb ->
  length ca = length cb ->
  df_others means [a; b] <> [] ->
  groupby_count means a b = inr rows ->
  exists counts,
    mapM unpack_count_tail rows = inr counts
    /\ mapM first_count rows = inr counts
    /\ Zsum counts = Z.of_nat (length ca).
Proof.
  intros Ha Hb Hlen Hothers. unfold groupby_count.
  rewrite Ha, Hb. unfold ok. intros H. injection H as <-.
  destruct (df_others means [a; b]) as [|c others]; [congruence|].
  exists (map snd (GroupBy.sizes Qpair_cmp (combine ca cb))).
  split; [|split].
  - apply mapM_map_ok. intros g. unfold unpack_count_tail. cbn [cr_counts].
    rewrite rev_constant. reflexivity.
  - apply mapM_map_ok. intros g. reflexivity.
  - rewrite <- total_Zsum, total_sizes, List.length_combine, <- Hlen.
    now rewrite Nat.min_id.
Qed.

(** C1. On a sweep of exactly two cluster counts the frame of positions
    has no column besides the two grouped ones, so the rows of the
    transition table carry no count: the static chart is drawn with its
    markers and without any transition line although the three
    observations all move from k = 1 to k = 2, and the interactive chart
    stops with an [IndexError]. *)
Theorem two_k_sweep_emits_no_edge :
  exists o,
    from_centers (firstn 2 example_centers) (firstn 2 example_labels) None = inr o
    /\ df_len (firstn 2 example_labels) = 3
    /\ fst (plot no_collaborators 1 1 None false None 1 (world_of o)) = inr tt
    /\ List.filter is_line
         (trace (snd (plot no_collaborators 1 1 None false None 1 (world_of o)))) = []
    /\ length (List.filter is_marker
         (trace (snd (plot no_collaborators 1 1 None false None 1 (world_of o))))) = 2%nat
    /\ bokeh no_collaborators 1 1 false None 1 (world_of o)
       = (inl IndexError, snd (bokeh no_collaborators 1 1 false None 1 (world_of o)))
    /\ trace (snd (bokeh no_collaborators 1 1 false None 1 (world_of o))) = [].
Proof.
  eexists. split; [reflexivity|]. vm_compute. repeat split.
Qed.

(** ** Invariants of method calls *)

Section Preservation.

Context (I : World -> Prop).

Lemma preserves_ret {A} (a : A) : preserves I (ret a).
Proof. intros w H. exact H. Qed.

Lemma preserves_throw {A} (e : exn) : preserves I (@throw A e).
Proof. intros w H. exact H. Qed.

Lemma preserves_lift {A} (r : result A) : preserves I (lift r).
Proof. intros w H. exact H. Qed.

Lemma preserves_attr {A} (f : Clustergram -> option A) : preserves I (attr f).
Proof. intros w H. unfold attr. now destruct (f (self w)). Qed.

Lemma preserves_field {A} (f : Clustergram -> A) : preserves I (field f).
Proof. intros w H. exact H. Qed.

Lemma preserves_deref l : preserves I (deref l).
Proof. intros w H. exact H. Qed.

Lemma preserves_iter {A} (it : option (list A)) : preserves I (iter it).
Proof. intros w H. now destruct it. Qed.

Lemma preserves_bind {A B} (c : M A) (k : A -> M B) :
  preserves I c -> (forall a, preserves I (k a)) -> preserves I (bind c k).
Proof.
  intros Hc Hk w H. unfold bind. specialize (Hc w H).
  destruct (c w) as [[e|a] w']; simpl in *; auto. now apply Hk.
Qed.

Lemma preserves_forM_ {A} (l : list A) (body : A -> M unit) :
  (forall x, preserves I (body x)) -> preserves I (forM_ l body).
Proof.
  intros Hb. induction l as [|x l IH]; simpl.
  - apply preserves_ret.
  - apply preserves_bind; auto.
Qed.

Lemma preserves_forM {A B} (l : list A) (body : A -> M B) :
  (forall x, preserves I (body x)) -> preserves I (forM l body).
Proof.
  intros Hb. induction l as [|x l IH]; simpl.
  - apply preserves_ret.
  - apply preserves_bind; auto. intros b.
    apply preserves_bind; auto. intros bs. apply preserves_ret.
Qed.

Lemma preserves_suppress es (body : M unit) :
  preserves I body -> preserves I (suppress es body).
Proof.
  intros Hb w H. unfold suppress. specialize (Hb w H).
  destruct (body w) as [[e|a] w']; simpl in *; auto.
  now destruct (existsb (exn_eqb e) es).
Qed.

End Preservation.

(** Structural steps of a preservation proof; what remains are the
    assignments and the collaborator calls. *)
Ltac preserves_step :=
  first
    [ apply preserves_ret | apply preserves_throw | apply preserves_lift
    | apply preserves_attr | apply preserves_field | apply preserves_deref
    | apply preserves_iter
    | apply preserves_bind; [|intros ?]
    | apply preserves_forM_; intros ?
    | apply preserves_forM; intros ?
    | apply preserves_suppress
    | match goal with
      | |- preserves _ (if ?b then _ else _) => destruct b
      | |- preserves _ (match ?x with _ => _ end) => destruct x
      end ].

Ltac preserves_with tac :=
  repeat first [ preserves_step | progress tac ].

(** Unfolding of the methods down to the primitive steps. *)
Ltac unfold_methods :=
  unfold plot, bokeh, plot_k, scatter, plot_lines, _compute_means, _compute_means_cuml,
    _compute_means_sklearn, _compute_pca_means_cuml, _compute_pca_means_sklearn,
    _compute_pca_means, pca_frame, pca_links, setitem.

(** ** The dictionaries of keyword arguments *)

Lemma heap_assign h upd : preserves (fun w => heap w = h) (assign upd).
Proof. intros w H. exact H. Qed.

Lemma heap_emit h e : preserves (fun w => heap w = h) (emit e).
Proof. intros w H. exact H. Qed.

Ltac heap_tac :=
  repeat first [ preserves_step | apply heap_assign | apply heap_emit
               | progress unfold_methods ].

(** Only the assignment to [pca_kwargs["n_components"]] changes a
    dictionary object during a call to [plot] or to [bokeh]. *)
Lemma plot_heap C size linewidth k_range_arg pca_weighted pca_kwargs pca_component w :
  heap (snd (plot C size linewidth k_range_arg pca_weighted pca_kwargs pca_component w))
  = <[default plot_pca_kwargs_default pca_kwargs :=
        <["n_components" := VInt pca_component]>
          (default ∅ (heap w !! default plot_pca_kwargs_default pca_kwargs))]> (heap w).
Proof.
  unfold plot. unfold bind at 1. cbn [dict_store].
  match goal with
  | |- heap (snd (?c ?w1)) = ?h =>
      assert (P : preserves (fun w => heap w = h) c) by heap_tac; apply P
  end.
  reflexivity.
Qed.

Lemma bokeh_heap C size line_width pca_weighted pca_kwargs pca_component w :
  heap (snd (bokeh C size line_width pca_weighted pca_kwargs pca_component w))
  = <[default bokeh_pca_kwargs_default pca_kwargs :=
        <["n_components" := VInt pca_component]>
          (default ∅ (heap w !! default bokeh_pca_kwargs_default pca_kwargs))]> (heap w).
Proof.
  unfold bokeh. unfold bind at 1. cbn [dict_store].
  match goal with
  | |- heap (snd (?c ?w1)) = ?h =>
      assert (P : preserves (fun w => heap w = h) c) by heap_tac; apply P
  end.
  reflexivity.
Qed.

(** C8. A call to [plot] or to [bokeh] stores [pca_component] under
    ["n_components"] in the dictionary object it received as
    [pca_kwargs], in place, and changes no other dictionary object,
    whether the call returns or raises.  When [pca_kwargs] is omitted the
    object is the default dictionary of the method, the same object at
    every call: a second call finds and overwrites what the first call
    stored.  ([plot] and [bokeh] each own one such default object.) *)
Theorem pca_kwargs_mutated_in_place :
  forall (C : Collaborators) (w : World) (size linewidth : Q)
         (k_range_arg : option (list Z)) (pca_weighted : bool)
         (pca_component c2 : Z),
    (forall l : loc,
        heap (snd (plot C size linewidth k_range_arg pca_weighted (Some l)
                     pca_component w))
        = <[l := <["n_components" := VInt pca_component]> (default ∅ (heap w !! l))]>
            (heap w)
        /\ heap (snd (bokeh C size linewidth pca_weighted (Some l) pca_component w))
           = <[l := <["n_components" := VInt pca_component]> (default ∅ (heap w !! l))]>
               (heap w))
    /\ (let w1 := snd (plot C size linewidth k_range_arg pca_weighted None
                         pca_component w) in
        let w2 := snd (plot C size linewidth k_range_arg pca_weighted None c2 w1) in
        heap w1 = <[plot_pca_kwargs_default :=
                      <["n_components" := VInt pca_component]>
                        (default ∅ (heap w !! plot_pca_kwargs_default))]> (heap w)
        /\ heap w2 !! plot_pca_kwargs_default
           = Some (<["n_components" := VInt c2]>
                     (<["n_components" := VInt pca_component]>
                        (default ∅ (heap w !! plot_pca_kwargs_default)))))
    /\ (let w1 := snd (bokeh C size linewidth pca_weighted None pca_component w) in
        let w2 := snd (bokeh C size linewidth pca_weighted None c2 w1) in
        heap w1 = <[bokeh_pca_kwargs_default :=
                      <["n_components" := VInt pca_component]>
                        (default ∅ (heap w !! bokeh_pca_kwargs_default))]> (heap w)
        /\ heap w2 !! bokeh_pca_kwargs_default
           = Some (<["n_components" := VInt c2]>
                     (<["n_components" := VInt pca_component]>
                        (default ∅ (heap w !! bokeh_pca_kwargs_default))))).
Proof.
  intros C w size linewidth k_range_arg pca_weighted pca_component c2.
  split; [|split].
  - intros l. split; [apply plot_heap | apply bokeh_heap].
  - cbv zeta. split; [apply plot_heap|].
    rewrite !plot_heap. simpl default.
    rewrite lookup_insert_eq. simpl. now rewrite lookup_insert_eq.
  - cbv zeta. split; [apply bokeh_heap|].
    rewrite !bokeh_heap. simpl default.
    rewrite lookup_insert_eq. simpl. now rewrite lookup_insert_eq.
Qed.

(** ** The PCA cache *)












(** ** Position reduction on the example of [from_centers] *)

(** C2 as stated does not hold: with labels [0, 2, 1] at k = 3,
    observation 1 sits at the mean of centre 2, which is 0, not 1. *)
Lemma example_positions_not_as_claimed :
  exists o w',
    from_centers example_centers example_labels None = inr o
    /\ _compute_means no_collaborators false ∅ (world_of o) = (inr tt, w')
    /\ exists pd p0 p1 p2,
         plot_data (self w') = Some pd
         /\ position pd 3 0 = Some p0 /\ position pd 3 1 = Some p1
         /\ position pd 3 2 = Some p2
         /\ ~ (p0 == -1 /\ p1 == 1 /\ p2 == 0)%Q.
Proof.
  eexists. eexists. split; [reflexivity|]. split; [vm_compute; reflexivity|].
  eexists. eexists. eexists. eexists.
  split; [reflexivity|]. split; [reflexivity|]. split; [reflexivity|].
  split; [reflexivity|].
  intros [_ [H _]]. vm_compute in H. discriminate.
Qed.

(** C2, amended. On the example, plain-mode reduction at k = 3 maps the
    labels [0, 2, 1] through the centre means [-1, 1, 0]: observation 0
    sits at -1, observation 1 at 0 and observation 2 at 1. *)
Theorem example_positions_at_3 :
  exists o w',
    from_centers example_centers example_labels None = inr o
    /\ _compute_means no_collaborators false ∅ (world_of o) = (inr tt, w')
    /\ exists pd p0 p1 p2,
         plot_data (self w') = Some pd
         /\ position pd 3 0 = Some p0 /\ position pd 3 1 = Some p1
         /\ position pd 3 2 = Some p2
         /\ (p0 == -1 /\ p1 == 0 /\ p2 == 1)%Q.
Proof.
  eexists. eexists. split; [reflexivity|]. split; [vm_compute; reflexivity|].
  eexists. eexists. eexists. eexists.
  split; [reflexivity|]. split; [reflexivity|]. split; [reflexivity|].
  split; [reflexivity|].
  repeat split.
Qed.

(** ** Errors of the PCA-weighted reduction *)

Lemma bind_raises {A B} (c : M A) (k : A -> M B) w e :
  fst (c w) = inl e -> fst (bind c k w) = inl e.
Proof. unfold bind. destruct (c w) as [[e'|a] w']; simpl; congruence. Qed.

(** A request above the highest count so far reads the dataset and calls
    the PCA collaborator; it fails when either does. *)
Lemma compute_pca_means_raises C cuml kw n m w :
  kw !! "n_components" = Some (VInt n) ->
  _n_pca (self w) = Some m -> n > m ->
  (data (self w) = None ->
   fst (_compute_pca_means C cuml kw w) = inl AttributeError)
  /\ (forall X e, data (self w) = Some X -> PCA_fit C cuml kw X = inl e ->
      fst (_compute_pca_means C cuml kw w) = inl e).
Proof.
  intros Hkw Hn Hgt.
  assert (E : (n >? m) = true) by lia.
  split; [intros Hd | intros X e Hd He];
    unfold _compute_pca_means; unfold bind at 1; unfold lift at 1, kw_int;
    rewrite Hkw; cbn [ok]; unfold bind at 1; unfold attr at 1; rewrite Hn, E;
    apply bind_raises; unfold bind at 1; cbn [assign];
    unfold bind at 1; unfold attr at 1; cbn [self data set__n_pca]; rewrite Hd.
  - reflexivity.
  - unfold bind at 1. cbn [emit]. unfold bind at 1. unfold lift at 1.
    rewrite He. reflexivity.
Qed.

Lemma render_pca_raises C r m w :
  weighted r = true ->
  _n_pca (self w) = Some m -> requested r > m ->
  (data (self w) = None -> fst (render C r w) = inl AttributeError)
  /\ (forall X, data (self w) = Some X ->
      (forall cuml kw, kw !! "n_components" = Some (VInt (requested r)) ->
                       PCA_fit C cuml kw X = inl ValueError) ->
      fst (render C r w) = inl ValueError).
Proof.
  intros Hw Hn Hgt.
  assert (G : forall kw (rest : unit -> M unit) (w1 : World),
             self w1 = self w ->
             kw !! "n_components" = Some (VInt (requested r)) ->
             (data (self w) = None ->
              fst (bind (_compute_means C true kw) rest w1) = inl AttributeError)
             /\ (forall X, data (self w) = Some X ->
                 (forall cuml kw, kw !! "n_components" = Some (VInt (requested r)) ->
                                  PCA_fit C cuml kw X = inl ValueError) ->
                 fst (bind (_compute_means C true kw) rest w1) = inl ValueError)).
  { intros kw rest w1 Hs Hkw.
    assert (Hn1 : _n_pca (self w1) = Some m) by now rewrite Hs.
    split; [intros Hd | intros X Hd Hrej]; apply bind_raises;
      unfold _compute_means; unfold bind at 1; cbn [field];
      rewrite <- Hs in Hd;
      destruct (backend_in (_backend (self w1)) ["sklearn"; "scipy"]).
    - now apply (compute_pca_means_raises C false kw (requested r) m w1).
    - now apply (compute_pca_means_raises C true kw (requested r) m w1).
    - apply (proj2 (compute_pca_means_raises C false kw (requested r) m w1
                      Hkw Hn1 Hgt) X); auto.
    - apply (proj2 (compute_pca_means_raises C true kw (requested r) m w1
                      Hkw Hn1 Hgt) X); auto. }
  destruct r as [size lw kr pw kwl n | size lw pw kwl n];
    simpl in Hw; subst pw; simpl requested in *; simpl render;
    (split; [intros Hd | intros X Hd Hrej]);
    unfold plot, bokeh; unfold bind at 1; cbn [dict_store];
    unfold bind at 1; cbn [deref heap]; rewrite lookup_insert_eq; cbn [default];
    match goal with
    | |- context [bind (_compute_means C true ?kw) ?rest ?w1] =>
        destruct (G kw rest w1) as [G1 G2];
        [reflexivity | apply lookup_insert_eq | eauto]
    end.
Qed.

(** C6 as stated does not hold: on an object built by [from_centers]
    without the dataset, a PCA-weighted render raises [AttributeError],
    which is not a [ValueError]. *)
Lemma missing_data_is_not_a_value_error :
  exists o,
    from_centers example_centers example_labels None = inr o
    /\ fst (plot axis_pca 1 1 None true None 1 (world_of o)) = inl AttributeError
    /\ fst (plot axis_pca 1 1 None true None 1 (world_of o)) <> inl ValueError.
Proof.
  eexists. split; [reflexivity|]. split; [reflexivity|].
  vm_compute. discriminate.
Qed.

(** C6, amended. A PCA-weighted render whose component count exceeds the
    highest count requested so far fails with the [ValueError] of the PCA
    collaborator when the count exceeds the feature dimensionality of the
    stored dataset, and fails with [AttributeError] when no dataset was
    ever stored. *)
Theorem pca_request_errors (C : Collaborators) (r : request) (m : Z) (w : World) :
  rejects_excess C ->
  weighted r = true ->
  _n_pca (self w) = Some m -> requested r > m ->
  (forall X, data (self w) = Some X -> requested r > n_features X ->
             fst (render C r w) = inl ValueError)
  /\ (data (self w) = None -> fst (render C r w) = inl AttributeError).
Proof.
  intros Hrej Hw Hn Hgt.
  destruct (render_pca_raises C r m w Hw Hn Hgt) as [Hnone Hsome].
  split; [|exact Hnone].
  intros X Hd HD. apply (Hsome X Hd). intros cuml kw Hkw.
  exact (Hrej cuml kw X (requested r) Hkw HD).
Qed.

Lemma axis_pca_rejects_excess : rejects_excess axis_pca.
Proof.
  intros cuml kw X n Hkw Hn. simpl. rewrite Hkw.
  assert (E : (n >? n_features X) = true) by lia. now rewrite E.
Qed.

(** The statement instantiated on the example of [from_centers]: three
    components on two features with the dataset, and one component
    without it. *)
Lemma pca_request_errors_witness :
  exists o o',
    from_centers example_centers example_labels (Some example_data) = inr o
    /\ from_centers example_centers example_labels None = inr o'
    /\ fst (render axis_pca (Plot 1 1 None true None 3) (world_of o)) = inl ValueError
    /\ fst (render axis_pca (Bokeh 1 1 true None 1) (world_of o')) = inl AttributeError.
Proof.
  eexists. eexists. split; [reflexivity|]. split; [reflexivity|]. split.
  - refine (proj1 (pca_request_errors axis_pca (Plot 1 1 None true None 3) 0 _
                     axis_pca_rejects_excess _ _ _) example_data _ _);
      [reflexivity | reflexivity | reflexivity | reflexivity | reflexivity].
  - refine (proj2 (pca_request_errors axis_pca (Bokeh 1 1 true None 1) 0 _
                     axis_pca_rejects_excess _ _ _) _);
      [reflexivity | reflexivity | reflexivity | reflexivity].
Defined.

(** ** Suppressed errors of the transition lines *)

Lemma suppress_never_raises es body w e :
  fst (suppress es body w) = inl e -> existsb (exn_eqb e) es = false.
Proof.
  unfold suppress. destruct (body w) as [[e'|a] w']; simpl; [|discriminate].
  destruct (existsb (exn_eqb e') es) eqn:E; simpl; [discriminate|].
  intros H. injection H as <-. exact E.
Qed.

Lemma py_last_nonempty {A} (l : list A) x : In x l -> exists y, py_last l = inr y.
Proof.
  intros Hin. unfold py_last, py_index.
  assert (Hlen : (0 < length l)%nat) by (destruct l; [contradiction | simpl; lia]).
  assert (E1 : (-1 <? 0) = true) by reflexivity. rewrite E1.
  assert (E2 : ((0 <=? -1 + Z.of_nat (length l))
                && (-1 + Z.of_nat (length l) <? Z.of_nat (length l)))%bool = true).
  { apply andb_true_intro. split; lia. }
  rewrite E2.
  destruct (nth_error l (Z.to_nat (-1 + Z.of_nat (length l)))) as [y|] eqn:E.
  - now exists y.
  - apply List.nth_error_None in E. lia.
Qed.

(** C10. In the static renderer the lines between [i] and [i + 1] are
    drawn under [contextlib.suppress(KeyError, ValueError)]: this step
    never raises either error, and when [i + 1] is not a column of the
    frame of positions (a sweep with a gap; the frame not being one of
    exactly two observations, which pandas groups by the key list
    itself) it draws nothing and raises nothing.  On the sweep of cluster counts 2 and 4 the chart of the
    subset [2, 4] is returned with its two sets of markers and without
    any transition line. *)
Theorem transition_errors_suppressed (means : DataFrame) (ks : list Z) (i : Z)
    (linewidth : Q) (w : World) :
  (forall e, fst (suppress [KeyError; ValueError] (plot_lines means ks i linewidth) w)
             = inl e -> e <> KeyError /\ e <> ValueError)
  /\ (In i ks -> od_get means (i + 1) = None -> df_len means <> 2 ->
      suppress [KeyError; ValueError] (plot_lines means ks i linewidth) w = (inr tt, w))
  /\ (exists o,
        from_centers gap_centers gap_labels None = inr o
        /\ fst (plot no_collaborators 1 1 (Some [2; 4]) false None 1 (world_of o)) = inr tt
        /\ length (List.filter is_marker
             (trace (snd (plot no_collaborators 1 1 (Some [2; 4]) false None 1
                            (world_of o))))) = 2%nat
        /\ List.filter is_line
             (trace (snd (plot no_collaborators 1 1 (Some [2; 4]) false None 1
                            (world_of o)))) = []).
Proof.
  split; [|split].
  - intros e He. apply suppress_never_raises in He.
    split; intros ->; discriminate.
  - intros Hin Hmiss HN. destruct (py_last_nonempty ks i Hin) as [last Hlast].
    unfold suppress, plot_lines. unfold bind at 1. unfold lift at 1.
    rewrite Hlast. destruct (i + 1 >? last); [reflexivity|].
    unfold bind at 1. unfold lift at 1, groupby_count.
    apply Z.eqb_neq in HN. rewrite Hmiss, HN.
    destruct (od_get means i); reflexivity.
  - eexists. split; [reflexivity|]. vm_compute. repeat split.
Qed.

(** The statement instantiated at the gap of the sweep of cluster
    counts 2 and 4. *)
Lemma transition_errors_suppressed_witness :
  suppress [KeyError; ValueError]
    (plot_lines [(2, [-1; -1; 1; 1]%Q); (4, [-2; -1; 1; 2]%Q)] [2; 4] 2 1)
    (world_of (__init__ (Some [2; 4]) None "kmeans" true ∅))
  = (inr tt, world_of (__init__ (Some [2; 4]) None "kmeans" true ∅)).
Proof.
  refine (proj1 (proj2 (transition_errors_suppressed
                          [(2, [-1; -1; 1; 1]%Q); (4, [-2; -1; 1; 2]%Q)] [2; 4] 2 1
                          (world_of (__init__ (Some [2; 4]) None "kmeans" true ∅))))
            _ _ _).
  - simpl. auto.
  - reflexivity.
  - discriminate.
Defined.

(** ** Columns of the cached frames *)

Section PreservationWithReads.

Context (I : World -> Prop).

(** The continuation of a read only matters for the values that can
    be read in a state satisfying the invariant. *)
Lemma preserves_bind_field {A B} (f : Clustergram -> A) (k : A -> M B) :
  (forall a, (exists w, I w /\ f (self w) = a) -> preserves I (k a)) ->
  preserves I (bind (field f) k).
Proof. intros H w HI. unfold bind, field. apply H; eauto. Qed.

Lemma preserves_bind_attr {A B} (f : Clustergram -> option A) (k : A -> M B) :
  (forall a, (exists w, I w /\ f (self w) = Some a) -> preserves I (k a)) ->
  preserves I (bind (attr f) k).
Proof.
  intros H w HI. unfold bind, attr.
  destruct (f (self w)) as [a|] eqn:E; simpl; auto. apply H; eauto.
Qed.

Lemma preserves_bind_ret {A B} (a : A) (k : A -> M B) :
  preserves I (k a) -> preserves I (bind (ret a) k).
Proof. intros H w HI. unfold bind, ret. now apply H. Qed.

Lemma preserves_bind_assoc {A B D} (c : M A) (k1 : A -> M B) (k2 : B -> M D) :
  preserves I (bind c (fun a => bind (k1 a) k2)) ->
  preserves I (bind (bind c k1) k2).
Proof.
  intros H w HI. specialize (H w HI). unfold bind in *.
  destruct (c w) as [[e|a] w']; simpl in *; auto.
Qed.

Lemma preserves_forM_In {A} (l : list A) (body : A -> M unit) :
  (forall x, In x l -> preserves I (body x)) -> preserves I (forM_ l body).
Proof.
  induction l as [|x l IH]; intros Hb; simpl.
  - apply preserves_ret.
  - apply preserves_bind; [apply Hb; now left|].
    intros _. apply IH. intros y Hy. apply Hb. now right.
Qed.

End PreservationWithReads.

Lemma od_keys_set {V} (d : odict V) k v c :
  In c (od_keys (od_set d k v)) -> c = k \/ In c (od_keys d).
Proof.
  unfold od_keys. induction d as [|[k' v'] d IH]; simpl.
  - intros [<-|[]]. now left.
  - destruct (Z.eqb k k') eqn:E; simpl.
    + intros [<-|H]; auto.
    + intros [<-|H]; auto. destruct (IH H); auto.
Qed.

Section CacheFacts.

Variable C : Collaborators.
Variable sweep : list Z.

Lemma swept_assign upd :
  (forall o, k_range (upd o) = k_range o) ->
  (forall o, plot_data (upd o) = plot_data o) ->
  (forall o, plot_data_pca (upd o) = plot_data_pca o) ->
  preserves (swept sweep) (assign upd).
Proof.
  intros H1 H2 H3 w [Hk [Hp Hq]]. unfold swept, cache_wf. simpl.
  rewrite H1, H2, H3. auto.
Qed.

Lemma swept_emit e : preserves (swept sweep) (emit e).
Proof. intros w H. exact H. Qed.

Lemma swept_set_plot_data pd n col :
  (exists w, swept sweep w /\ plot_data (self w) = Some pd) -> In n sweep ->
  preserves (swept sweep) (assign (set_plot_data (od_set pd n col))).
Proof.
  intros [w0 [[_ [Hp0 _]] Hpd]] Hn w [Hk [Hp Hq]].
  unfold swept, cache_wf. simpl. split; [exact Hk|]. split.
  - intros pd' c Heq Hc. injection Heq as <-.
    destruct (od_keys_set _ _ _ _ Hc) as [->|Hc']; eauto.
  - exact Hq.
Qed.

Lemma swept_set_plot_data_pca pdp frame n_pca n col :
  (exists w, swept sweep w /\ plot_data_pca (self w) = Some pdp) ->
  (exists w pdp', swept sweep w /\ plot_data_pca (self w) = Some pdp'
                  /\ frame = default [] (pdp' !! n_pca)) ->
  In n sweep ->
  preserves (swept sweep)
    (assign (set_plot_data_pca (<[n_pca := od_set frame n col]> pdp))).
Proof.
  intros [w0 [[_ [_ Hq0]] Hpdp]] [w1 [pdp' [[_ [_ Hq1]] [Hpdp' Hf]]]] Hn w [Hk [Hp Hq]].
  unfold swept, cache_wf. simpl. split; [exact Hk|]. split; [exact Hp|].
  intros pdp2 n2 f c Heq Hl Hc. injection Heq as <-.
  destruct (decide (n_pca = n2)) as [->|Hne].
  - rewrite lookup_insert_eq in Hl. injection Hl as <-.
    destruct (od_keys_set _ _ _ _ Hc) as [->|Hc']; auto.
    subst frame. destruct (pdp' !! n2) as [f'|] eqn:E; simpl in Hc'; [|contradiction].
    eapply Hq1; eauto.
  - rewrite lookup_insert_ne in Hl by exact Hne. eapply Hq0; eauto.
Qed.

(** The loops that fill the caches run over the sweep. *)
Lemma swept_loop (body : Z -> M unit) :
  (forall n, In n sweep -> preserves (swept sweep) (body n)) ->
  preserves (swept sweep) (kr <- field k_range;; ks <- iter kr;; forM_ ks body).
Proof.
  intros Hb. apply preserves_bind_field. intros kr [w [[Hk _] Heq]].
  rewrite Hk in Heq. subst kr. simpl. apply preserves_bind_ret.
  apply preserves_forM_In. exact Hb.
Qed.

End CacheFacts.

Ltac swept_tac :=
  repeat first
    [ preserves_step
    | apply swept_emit
    | apply swept_assign; [intros ?; reflexivity | intros ?; reflexivity
                          | intros ?; reflexivity] ].

Lemma compute_means_sklearn_swept sweep :
  preserves (swept sweep) _compute_means_sklearn.
Proof.
  unfold _compute_means_sklearn.
  apply preserves_bind; [swept_tac|]. intros _.
  apply swept_loop. intros n Hn.
  do 5 (apply preserves_bind; [swept_tac|]; intros ?).
  apply preserves_bind.
  - unfold setitem. apply preserves_bind_attr. intros pd Hpd.
    now apply swept_set_plot_data.
  - intros _. unfold setitem. swept_tac.
Qed.

Lemma compute_pca_means_swept C sweep cuml kw :
  preserves (swept sweep) (_compute_pca_means C cuml kw).
Proof.
  unfold _compute_pca_means.
  do 2 (apply preserves_bind; [swept_tac|]; intros ?).
  apply preserves_bind; [swept_tac|]. intros _.
  apply preserves_bind; [unfold pca_frame; swept_tac|]. intros frame0.
  destruct (df_empty frame0); [|swept_tac].
  apply swept_loop. intros n Hn.
  do 8 (apply preserves_bind; [swept_tac|]; intros ?).
  unfold pca_frame at 1. apply preserves_bind_assoc.
  apply preserves_bind_attr. intros pdp' Hpdp'. apply preserves_bind_ret.
  apply preserves_bind_attr. intros pdp Hpdp.
  apply preserves_bind.
  - apply swept_set_plot_data_pca; auto.
    destruct Hpdp' as [w1 [H1 H2]]. exists w1, pdp'. auto.
  - intros _. unfold pca_links. swept_tac.
Qed.

(** Computing the positions keeps the sweep and only adds columns of the
    sweep to the cached frames. *)
Lemma compute_means_swept C sweep pca_weighted kw :
  preserves (swept sweep) (_compute_means C pca_weighted kw).
Proof.
  unfold _compute_means. apply preserves_bind; [swept_tac|]. intros b.
  destruct pca_weighted.
  - destruct (backend_in b ["sklearn"; "scipy"]); apply compute_pca_means_swept.
  - apply preserves_bind; [swept_tac|]. intros pd.
    destruct (df_empty pd); [|swept_tac].
    destruct (backend_in b ["sklearn"; "scipy"]); apply compute_means_sklearn_swept.
Qed.

(** ** A cluster count outside the sweep *)

Lemma forM_ok_each {A} (l : list A) (body : A -> M unit) w x :
  fst (forM_ l body w) = inr tt -> In x l -> exists w', fst (body x w') = inr tt.
Proof.
  revert w. induction l as [|y l IH]; intros w H Hin; [contradiction|].
  simpl in H. unfold bind in H.
  destruct (body y w) as [[e|[]] w1] eqn:E; simpl in H; [discriminate|].
  destruct Hin as [->|Hin].
  - exists w. now rewrite E.
  - eapply IH; eauto.
Qed.

Lemma py_div_ok a b : b <> 0 -> exists q, py_div a b = inr q.
Proof.
  intros Hb. unfold py_div. apply Z.eqb_neq in Hb. rewrite Hb. eauto.
Qed.

Lemma plot_k_ok_nonzero means ks size linewidth i w :
  fst (plot_k means ks size linewidth i w) = inr tt -> df_len means <> 0.
Proof.
  unfold plot_k. unfold bind at 1. unfold lift at 1.
  destruct (getitem means i) as [e|col]; [discriminate|].
  unfold bind at 1. unfold lift at 1. unfold py_div.
  destruct (Z.eqb (df_len means) 0) eqn:E; [discriminate|].
  intros _. now apply Z.eqb_neq.
Qed.

Lemma groupby_count_error means a b e :
  groupby_count means a b = inl e -> e = KeyError.
Proof.
  unfold groupby_count.
  destruct (od_get means a), (od_get means b), (Z.eqb (df_len means) 2);
    try discriminate; intros H; now injection H.
Qed.

Lemma draw_rows_result (sub : list CountRow) (f : CountRow -> Z -> Q -> event) u N :
  py_div 50 N = inr u ->
  forall w e,
    fst (forM_ sub (fun r => count_tail <- lift (unpack_count_tail r);;
                             u <- lift (py_div 50 N);;
                             emit (f r count_tail u)) w) = inl e ->
    e = ValueError.
Proof.
  intros Hu. rewrite Hu. clear Hu.
  induction sub as [|r sub IH]; intros w e; [discriminate|].
  cbn [forM_]. unfold bind at 1. unfold bind at 1. unfold lift at 1.
  unfold unpack_count_tail at 1.
  destruct (rev (cr_counts r)) as [|c0 rest].
  - simpl. intros H. now injection H.
  - cbn [ok]. unfold bind at 1. unfold lift at 1.
    cbn [emit]. apply IH.
Qed.

(** With at least one observation, the step that draws the lines never
    raises. *)
Lemma plot_lines_ok means ks i linewidth w :
  In i ks -> df_len means <> 0 ->
  fst (suppress [KeyError; ValueError] (plot_lines means ks i linewidth) w) = inr tt.
Proof.
  intros Hin HN. destruct (py_last_nonempty ks i Hin) as [last Hlast].
  destruct (py_div_ok 50 (df_len means) HN) as [u Hu].
  unfold suppress, plot_lines. unfold bind at 1. unfold lift at 1. rewrite Hlast.
  destruct (i + 1 >? last); [reflexivity|].
  unfold bind at 1. unfold lift at 1.
  destruct (groupby_count means i (i + 1)) as [e|sub] eqn:E.
  - apply groupby_count_error in E. subst e. reflexivity.
  - pose proof (draw_rows_result sub
                  (fun r count_tail u =>
                     EvPlot i (i + 1) (cr_head r) (cr_tail r)
                       (inject_Z count_tail * u * linewidth)%Q)
                  u (df_len means) Hu w) as D.
    cbv beta in D.
    match type of D with
    | forall e, fst ?t = _ -> _ => destruct t as [[e|[]] w']
    end; simpl in *; [|reflexivity].
    rewrite (D e eq_refl). reflexivity.
Qed.

(** The markers of [i] can be drawn: [i] is a column of the frame, the
    frame has a row, and the column has [i] distinct positions, one for
    each of the [i] abscissas handed to [ax.scatter]. *)
Lemma plot_k_returned means ks size linewidth i w :
  fst (plot_k means ks size linewidth i w) = inr tt ->
  exists col,
    od_get means i = Some col /\ df_len means <> 0
    /\ length (py_repeat i i) = length (value_counts col).
Proof.
  intros H. pose proof (plot_k_ok_nonzero _ _ _ _ _ _ H) as HN.
  revert H. unfold plot_k. unfold bind at 1. unfold lift at 1, getitem.
  destruct (od_get means i) as [col|]; [|discriminate].
  cbn [ok]. destruct (py_div_ok 500 (df_len means) HN) as [u Hu].
  unfold bind at 1. unfold lift at 1. rewrite Hu.
  unfold bind at 1. unfold scatter.
  destruct (Nat.eqb (length (py_repeat i i)) (length (map fst (value_counts col))))
    eqn:E; [|discriminate].
  intros _. exists col. repeat split; auto.
  apply Nat.eqb_eq in E. now rewrite length_map in E.
Qed.

Lemma no_marker_emit pre e :
  is_marker e = false ->
  preserves (fun w => exists t, trace w = pre ++ t /\ List.filter is_marker t = [])
            (emit e).
Proof.
  intros He w [t [Ht Hm]]. exists (t ++ [e]). simpl. split.
  - rewrite Ht. now rewrite <- List.app_assoc.
  - rewrite List.filter_app, Hm. simpl. now rewrite He.
Qed.

(** The lines between [i] and [i + 1] only add calls to [ax.plot]. *)
Lemma plot_lines_draw_lines means ks i linewidth pre :
  preserves (fun w => exists t, trace w = pre ++ t /\ List.filter is_marker t = [])
            (suppress [KeyError; ValueError] (plot_lines means ks i linewidth)).
Proof.
  unfold plot_lines.
  repeat first [ preserves_step | apply no_marker_emit; reflexivity ].
Qed.

(** When they can be drawn, the markers of [i] are drawn, then lines,
    and the iteration returns, whatever the subset [ks] asked for and
    whatever was drawn before. *)
Lemma plot_k_returns means ks size linewidth i col w :
  In i ks -> od_get means i = Some col -> df_len means <> 0 ->
  length (py_repeat i i) = length (value_counts col) ->
  exists w' y s t,
    plot_k means ks size linewidth i w = (inr tt, w')
    /\ trace w' = trace w ++ EvScatter (py_repeat i i) y s :: t
    /\ List.filter is_marker t = [].
Proof.
  intros Hin Hcol HN Hlen.
  destruct (py_div_ok 500 (df_len means) HN) as [u Hu].
  unfold plot_k. unfold bind at 1. unfold lift at 1, getitem. rewrite Hcol. cbn [ok].
  unfold bind at 1. unfold lift at 1. rewrite Hu.
  unfold scatter. rewrite !length_map, Hlen, !Nat.eqb_refl, orb_true_r. cbn [andb].
  unfold bind at 1. cbn [emit].
  match goal with
  | |- context [suppress ?es ?body ?w1] =>
      pose proof (plot_lines_ok means ks i linewidth w1 Hin HN) as Hok;
      pose proof (plot_lines_draw_lines means ks i linewidth (trace w1) w1) as Hl;
      destruct (suppress es body w1) as [[e|[]] w2]; simpl in Hok; [discriminate|]
  end.
  destruct Hl as [t [Ht Hm]]; [exists []; split; [now rewrite List.app_nil_r | reflexivity]|].
  cbn [snd trace] in Ht.
  eexists. eexists. eexists. exists t. split; [reflexivity|]. split; [|exact Hm].
  rewrite Ht, <- List.app_assoc. reflexivity.
Qed.

(** An iteration at a value that is not a column raises [KeyError]
    before it draws. *)
Lemma plot_k_key_error means ks size linewidth i w :
  od_get means i = None -> plot_k means ks size linewidth i w = (inl KeyError, w).
Proof.
  intros Hnone. unfold plot_k, bind, lift, getitem. now rewrite Hnone.
Qed.

Lemma forM__app {A} (l1 l2 : list A) (body : A -> M unit) w :
  forM_ (l1 ++ l2) body w = (forM_ l1 body ;;; forM_ l2 body) w.
Proof.
  revert w. induction l1 as [|x l1 IH]; intros w; [reflexivity|].
  cbn [forM_ app]. unfold bind.
  destruct (body x w) as [[e|[]] w1]; [reflexivity|]. rewrite IH. reflexivity.
Qed.

(** The loop of [plot] over cluster counts whose markers can be drawn
    returns, with one set of markers for each. *)
Lemma plot_loop_prefix means ks size linewidth : forall pre w,
  (forall i, In i pre ->
     In i ks /\ exists col, od_get means i = Some col /\ df_len means <> 0
                            /\ length (py_repeat i i) = length (value_counts col)) ->
  exists w' t,
    forM_ pre (plot_k means ks size linewidth) w = (inr tt, w')
    /\ trace w' = trace w ++ t
    /\ length (List.filter is_marker t) = length pre
    /\ forall i, In i pre -> exists y s, In (EvScatter (py_repeat i i) y s) t.
Proof.
  induction pre as [|x pre IH]; intros w Hd.
  - exists w, []. cbn. rewrite List.app_nil_r. repeat split; auto; contradiction.
  - destruct (Hd x (or_introl eq_refl)) as [Hin [col [Hcol [HN Hlen]]]].
    destruct (plot_k_returns means ks size linewidth x col w Hin Hcol HN Hlen)
      as [w1 [y [s [t [Hrun [Ht Hm]]]]]].
    destruct (IH w1 (fun i Hi => Hd i (or_intror Hi))) as [w2 [t2 [Hrun2 [Ht2 [Hn2 Hall]]]]].
    exists w2, (EvScatter (py_repeat x x) y s :: t ++ t2).
    cbn [forM_]. unfold bind at 1. rewrite Hrun. split; [exact Hrun2|].
    split; [|split].
    + rewrite Ht2, Ht, <- List.app_assoc. reflexivity.
    + cbn [List.filter is_marker length]. rewrite List.filter_app, Hm. cbn [app].
      now rewrite Hn2.
    + intros i [<-|Hi].
      * exists y, s. now left.
      * destruct (Hall i Hi) as [y' [s' Hy]]. exists y', s'. right.
        apply List.in_or_app. now right.
Qed.

(** The first value outside the sweep in a list that has one. *)
Lemma first_outside (sweep ks : list Z) k :
  In k ks -> ~ In k sweep ->
  exists pre k' post,
    ks = pre ++ k' :: post /\ (forall i, In i pre -> In i sweep) /\ ~ In k' sweep.
Proof.
  induction ks as [|x ks IH]; intros Hin Hout; [contradiction|].
  destruct (List.in_dec Z.eq_dec x sweep) as [Hx|Hx].
  - destruct Hin as [->|Hin]; [contradiction|].
    destruct (IH Hin Hout) as [pre [k' [post [-> [Hpre Hk']]]]].
    exists (x :: pre), k', post. split; [reflexivity|]. split; [|exact Hk'].
    intros i [<-|Hi]; auto.
  - exists [], x, ks. split; [reflexivity|]. split; [intros i []| exact Hx].
Qed.

(** [plot] is its first part followed by the loop over the cluster
    counts asked for, or over the sweep. *)
Lemma plot_unfold C size linewidth k_range_arg pca_weighted pca_kwargs pca_component w :
  plot C size linewidth k_range_arg pca_weighted pca_kwargs pca_component w
  = match plot_positions C pca_weighted pca_kwargs pca_component w with
    | (inl e, w2) => (inl e, w2)
    | (inr means, w2) =>
        (ks <- iter (match k_range_arg with
                     | None => k_range (self w2)
                     | Some l => Some l
                     end);;
         forM_ ks (plot_k means ks size linewidth)) w2
    end.
Proof.
  unfold plot, plot_positions. cbv zeta. unfold bind, dict_store, deref.
  match goal with
  | |- context [_compute_means C pca_weighted ?kw ?w1] =>
      destruct (_compute_means C pca_weighted kw w1) as [[e|[]] w2]; [reflexivity|]
  end.
  destruct k_range_arg as [l|], pca_weighted;
    unfold field, ret, pca_frame, attr, bind;
    try destruct (plot_data_pca (self w2));
    try destruct (plot_data (self w2)); reflexivity.
Qed.

(** Reading the frame of positions of a render leaves the world as it
    is, and a frame read on a swept clustergram only has columns of the
    sweep. *)
Lemma read_means sweep (pca_weighted : bool) c w means w' :
  swept sweep w ->
  (if pca_weighted then pca_frame c else attr plot_data) w = (inr means, w') ->
  w' = w /\ forall i, od_get means i <> None -> In i sweep.
Proof.
  intros [_ [Hp Hq]] H.
  assert (Hkeys : forall (d : DataFrame) i, od_get d i <> None -> In i (od_keys d)).
  { intros d i. unfold od_keys. induction d as [|[k v] d IH]; simpl; [congruence|].
    destruct (Z.eqb i k) eqn:E; [left; symmetry; now apply Z.eqb_eq | auto]. }
  destruct pca_weighted.
  - unfold pca_frame, bind, attr, ret in H.
    destruct (plot_data_pca (self w)) as [pdp|] eqn:E; [|discriminate].
    injection H as <- <-. split; [reflexivity|]. intros i Hi.
    destruct (pdp !! c) as [f|] eqn:Ef; simpl in Hi; [|congruence].
    eapply Hq; eauto.
  - unfold attr in H.
    destruct (plot_data (self w)) as [pd|] eqn:E; [|discriminate].
    injection H as <- <-. split; [reflexivity|]. intros i Hi. eapply Hp; eauto.
Qed.

(** The markers of a cluster count need as many distinct positions as
    there are clusters.  Two centres of equal mean share one position:
    [ax.scatter] receives two abscissas for one ordinate and raises
    [ValueError], with or without a subset of cluster counts. *)
Lemma coinciding_centres_cannot_be_drawn :
  exists o,
    from_centers [(2, [[1; -1]; [-1; 1]]%Q)] [(2, [0; 0; 1])] None = inr o
    /\ fst (plot no_collaborators 1 1 None false None 1 (world_of o)) = inl ValueError
    /\ fst (plot no_collaborators 1 1 (Some [2; 5]) false None 1 (world_of o))
       = inl ValueError
    /\ trace (snd (plot no_collaborators 1 1 None false None 1 (world_of o))) = [].
Proof.
  eexists. split; [reflexivity|]. vm_compute. repeat split.
Qed.

(** C7 as stated does not hold: asking for the cluster counts 2 and 5 on
    the sweep 1, 2, 3 raises [KeyError], which is not a [ValueError]. *)
Lemma unknown_k_is_not_a_value_error :
  exists o,
    from_centers example_centers example_labels None = inr o
    /\ fst (plot no_collaborators 1 1 (Some [2; 5]) false None 1 (world_of o))
       = inl KeyError
    /\ fst (plot no_collaborators 1 1 (Some [2; 5]) false None 1 (world_of o))
       <> inl ValueError.
Proof.
  eexists. split; [reflexivity|]. split; [reflexivity|].
  vm_compute. discriminate.
Qed.

(** C7, amended. On a clustergram whose unrestricted static chart can be
    drawn, asking [plot] (without stratification) for a subset of
    cluster counts that contains a value outside the sweep raises
    [KeyError], the failed lookup of the column of the first such value
    [k'], and returns no chart.  The error comes after the cluster counts
    [pre] that precede [k'] in the subset have been dealt with: the
    iterations of the loop over [pre] all returned, each drew its set of
    markers and then its lines, and the canvas is left as they left
    it.  *)
Theorem unknown_k_raises_key_error (C : Collaborators) (w : World)
    (size linewidth : Q) (pca_weighted : bool) (pca_kwargs : option loc)
    (pca_component : Z) (sweep ks : list Z) (k : Z) :
  k_range (self w) = Some sweep ->
  cache_wf sweep (self w) ->
  fst (plot C size linewidth None pca_weighted pca_kwargs pca_component w) = inr tt ->
  In k ks -> ~ In k sweep ->
  fst (plot C size linewidth (Some ks) pca_weighted pca_kwargs pca_component w)
  = inl KeyError
  /\ exists pre k' post means w2 w3 t,
       ks = pre ++ k' :: post /\ (forall i, In i pre -> In i sweep) /\ ~ In k' sweep
       /\ plot_positions C pca_weighted pca_kwargs pca_component w = (inr means, w2)
       /\ forM_ pre (plot_k means ks size linewidth) w2 = (inr tt, w3)
       /\ plot C size linewidth (Some ks) pca_weighted pca_kwargs pca_component w
          = (inl KeyError, w3)
       /\ trace w3 = trace w2 ++ t
       /\ length (List.filter is_marker t) = length pre
       /\ forall i, In i pre -> exists y s, In (EvScatter (py_repeat i i) y s) t.
Proof.
  intros Hkr Hwf Hall Hk Hout.
  assert (G : exists pre k' post means w2 w3 t,
       ks = pre ++ k' :: post /\ (forall i, In i pre -> In i sweep) /\ ~ In k' sweep
       /\ plot_positions C pca_weighted pca_kwargs pca_component w = (inr means, w2)
       /\ forM_ pre (plot_k means ks size linewidth) w2 = (inr tt, w3)
       /\ plot C size linewidth (Some ks) pca_weighted pca_kwargs pca_component w
          = (inl KeyError, w3)
       /\ trace w3 = trace w2 ++ t
       /\ length (List.filter is_marker t) = length pre
       /\ forall i, In i pre -> exists y s, In (EvScatter (py_repeat i i) y s) t).
  2:{ split; [|exact G].
      destruct G as (pre & k' & post & means & w2 & w3 & t & _ & _ & _ & _ & _ & G & _).
      now rewrite G. }
  rewrite plot_unfold in Hall. rewrite plot_unfold.
  (* the state in which the frame is read is swept *)
  assert (S : forall means w2,
             plot_positions C pca_weighted pca_kwargs pca_component w = (inr means, w2) ->
             k_range (self w2) = Some sweep
             /\ forall i, od_get means i <> None -> In i sweep).
  { intros means w2. unfold plot_positions. cbv zeta.
    unfold bind at 1. cbn [dict_store]. unfold bind at 1. cbn [deref].
    set (w1 := {| self := self w; heap := _; trace := trace w |}).
    set (kw := default ∅ (heap w1 !! _)).
    assert (S1 : swept sweep w1) by (split; assumption).
    pose proof (compute_means_swept C sweep pca_weighted kw w1 S1) as S2.
    unfold bind at 1.
    destruct (_compute_means C pca_weighted kw w1) as [[e|[]] w2'];
      [discriminate|]. cbn [snd] in S2. intros EM.
    destruct (read_means sweep pca_weighted pca_component w2' means w2 S2 EM)
      as [-> Hcols].
    split; [apply S2 | exact Hcols]. }
  destruct (plot_positions C pca_weighted pca_kwargs pca_component w)
    as [[e|means] w2]; [discriminate|].
  destruct (S means w2 eq_refl) as [Hkr2 Hcols]. clear S.
  rewrite Hkr2 in Hall. unfold bind at 1 in Hall. cbn [iter ret] in Hall.
  unfold bind at 1. cbn [iter ret].
  destruct (first_outside sweep ks k Hk Hout) as [pre [k' [post [Hks [Hpre Hk']]]]].
  assert (Hd : forall i, In i pre ->
             In i ks /\ exists col, od_get means i = Some col /\ df_len means <> 0
                        /\ length (py_repeat i i) = length (value_counts col)).
  { intros i Hi. split.
    - rewrite Hks. apply List.in_or_app. now left.
    - destruct (forM_ok_each _ _ _ i Hall (Hpre i Hi)) as [w' Hw'].
      eapply plot_k_returned; eauto. }
  destruct (plot_loop_prefix means ks size linewidth pre w2 Hd)
    as [w3 [t [Hrun [Ht [Hn Hmk]]]]].
  exists pre, k', post, means, w2, w3, t.
  repeat split; auto.
  rewrite Hks at 1. rewrite forM__app. unfold bind at 1. rewrite Hrun.
  cbn [forM_]. unfold bind at 1. rewrite plot_k_key_error; [reflexivity|].
  destruct (od_get means k') eqn:E; [|reflexivity].
  exfalso. apply Hk', Hcols. congruence.
Qed.

(** The statement instantiated on the example of [from_centers]: the
    subset 2, 5 of the sweep 1, 2, 3. *)
Lemma unknown_k_raises_key_error_witness :
  exists o,
    from_centers example_centers example_labels None = inr o
    /\ fst (plot no_collaborators 1 1 (Some [2; 5]) false None 1 (world_of o))
       = inl KeyError
    /\ exists pre k' post means w2 w3 t,
         [2; 5] = pre ++ k' :: post /\ (forall i, In i pre -> In i [1; 2; 3])
         /\ ~ In k' [1; 2; 3]
         /\ plot_positions no_collaborators false None 1 (world_of o) = (inr means, w2)
         /\ forM_ pre (plot_k means [2; 5] 1 1) w2 = (inr tt, w3)
         /\ plot no_collaborators 1 1 (Some [2; 5]) false None 1 (world_of o)
            = (inl KeyError, w3)
         /\ trace w3 = trace w2 ++ t
         /\ length (List.filter is_marker t) = length pre
         /\ forall i, In i pre -> exists y s, In (EvScatter (py_repeat i i) y s) t.
Proof.
  eexists. split; [reflexivity|].
  apply (unknown_k_raises_key_error no_collaborators _ 1 1 false None 1
           [1; 2; 3] [2; 5] 5).
  - reflexivity.
  - split.
    + intros pd c H. injection H as <-. intros [].
    + intros pdp n f c H. injection H as <-. rewrite lookup_empty. discriminate.
  - vm_compute. reflexivity.
  - simpl. auto.
  - simpl. intros [H|[H|[H|[]]]]; discriminate.
Defined.

(** ** Fitting *)

Lemma bind_field {A B} (f : Clustergram -> A) (k : A -> M B) w :
  bind (field f) k w = k (f (self w)) w.
Proof. reflexivity. Qed.

Lemma bind_assign {B} upd (k : unit -> M B) w :
  bind (assign upd) k w
  = k tt {| self := upd (self w); heap := heap w; trace := trace w |}.
Proof. reflexivity. Qed.

Lemma bind_emit {B} e (k : unit -> M B) w :
  bind (emit e) k w
  = k tt {| self := self w; heap := heap w; trace := trace w ++ [e] |}.
Proof. reflexivity. Qed.

Lemma bind_ret {A B} (a : A) (k : A -> M B) w : bind (ret a) k w = k a w.
Proof. reflexivity. Qed.

Lemma configured_assign kw b m pre upd :
  (forall o, kwargs (upd o) = kwargs o) -> (forall o, backend (upd o) = backend o) ->
  (forall o, method (upd o) = method o) ->
  preserves (configured kw b m pre) (assign upd).
Proof.
  intros H1 H2 H3 w [Hk [Hb [Hm He]]]. unfold configured. simpl.
  rewrite H1, H2, H3. auto.
Qed.

Lemma configured_emit kw b m pre e : preserves (configured kw b m pre) (emit e).
Proof.
  intros w [Hk [Hb [Hm [t Ht]]]]. unfold configured, extends. simpl.
  repeat split; auto. exists (t ++ [e]). rewrite Ht. now rewrite <- List.app_assoc.
Qed.

Ltac configured_tac :=
  repeat first
    [ preserves_step
    | apply configured_emit
    | apply configured_assign; [intros ?; reflexivity | intros ?; reflexivity
                               | intros ?; reflexivity]
    | progress unfold setitem ].

(** The hierarchical fit pops ["linkage"] from the keyword arguments of
    the object before it calls the linkage collaborator. *)
Lemma scipy_hierarchical_pops C X w :
  configured (delete "linkage" (kwargs (self w))) (backend (self w)) (method (self w))
    (trace w ++ [EvLinkage (kw_get (kwargs (self w)) "linkage" (VStr "single"))])
    (snd (_scipy_hierarchical C X w)).
Proof.
  unfold _scipy_hierarchical.
  rewrite bind_field, bind_assign, bind_field, bind_emit. cbn [self kwargs set_kwargs].
  match goal with
  | |- configured ?kw ?b ?m ?pre (snd (?c ?w1)) =>
      assert (P : preserves (configured kw b m pre) c) by configured_tac; apply P
  end.
  unfold configured, extends. simpl. repeat split; auto.
  exists []. now rewrite List.app_nil_r.
Qed.

(** With the hierarchical method and the default or the scipy backend,
    [fit] reaches the hierarchical routine. *)
Lemma fit_reaches_hierarchical C X w :
  backend (self w) = None \/ backend (self w) = Some "scipy" ->
  method (self w) = "hierarchical" ->
  exists w0,
    fit C X ∅ w = _scipy_hierarchical C X w0
    /\ kwargs (self w0) = kwargs (self w) /\ backend (self w0) = backend (self w)
    /\ method (self w0) = method (self w) /\ trace w0 = trace w.
Proof.
  intros Hb Hm. unfold fit.
  rewrite bind_field.
  assert (E1 : is_none (backend (self w))
               || backend_in (backend (self w)) ["sklearn"; "cuML"; "scipy"] = true)
    by (destruct Hb as [-> | ->]; reflexivity).
  rewrite E1, bind_ret, bind_field, Hm, bind_assign, bind_field.
  cbn [self k_range set__backend].
  assert (E2 : is_none (k_range (self w)) && negb (String.eqb "hierarchical" "hierarchical")
               = false) by apply andb_false_r.
  rewrite E2, bind_ret, bind_field. cbn [self _backend set__backend].
  assert (E3 : (match backend (self w) with
                | Some s => s
                | None => if String.eqb "hierarchical" "hierarchical"
                          then "scipy" else "sklearn"
                end) = "scipy") by (destruct Hb as [-> | ->]; reflexivity).
  rewrite E3. cbn [backend_in str_in existsb String.eqb Ascii.eqb Bool.eqb
                   orb andb negb].
  rewrite bind_ret, bind_ret, bind_field, !bind_assign, !bind_ret.
  rewrite bool_decide_eq_true_2 by reflexivity.
  eexists. split; [reflexivity|]. cbn. auto.
Qed.

Lemma fit_hierarchical_pops C X w :
  backend (self w) = None \/ backend (self w) = Some "scipy" ->
  method (self w) = "hierarchical" ->
  configured (delete "linkage" (kwargs (self w))) (backend (self w)) (method (self w))
    (trace w ++ [EvLinkage (kw_get (kwargs (self w)) "linkage" (VStr "single"))])
    (snd (fit C X ∅ w)).
Proof.
  intros Hb Hm.
  destruct (fit_reaches_hierarchical C X w Hb Hm) as [w0 [-> [Hk [Hb0 [Hm0 Ht]]]]].
  rewrite <- Hk, <- Hb0, <- Hm0, <- Ht. apply scipy_hierarchical_pops.
Qed.

(** C9. A clustergram built with [method="hierarchical"], the default or
    the scipy backend and a ["linkage"] keyword argument calls the
    linkage collaborator with that linkage at its first fit and removes
    the entry from its keyword arguments; a second fit of the same
    object calls the collaborator with the default linkage ["single"].
    This holds whether the fits return or raise after that call. *)
Theorem second_fit_uses_single_linkage (C : Collaborators)
    (k_range0 : option (list Z)) (backend0 : option string) (verbose0 : bool)
    (kwargs0 : gmap string pyval) (linkage0 : pyval) (X1 X2 : Data) (w : World) :
  backend0 = None \/ backend0 = Some "scipy" ->
  kwargs0 !! "linkage" = Some linkage0 ->
  self w = __init__ k_range0 backend0 "hierarchical" verbose0 kwargs0 ->
  let w1 := snd (fit C X1 ∅ w) in
  let w2 := snd (fit C X2 ∅ w1) in
  (exists t, trace w1 = trace w ++ EvLinkage linkage0 :: t)
  /\ kwargs (self w1) !! "linkage" = None
  /\ (exists t, trace w2 = trace w1 ++ EvLinkage (VStr "single") :: t).
Proof.
  intros Hb Hl Hs w1 w2.
  assert (Hb0 : backend (self w) = None \/ backend (self w) = Some "scipy")
    by (rewrite Hs; exact Hb).
  assert (Hm0 : method (self w) = "hierarchical") by (rewrite Hs; reflexivity).
  destruct (fit_hierarchical_pops C X1 w Hb0 Hm0) as [Hk1 [Hb1 [Hm1 [t1 Ht1]]]].
  fold w1 in Hk1, Hb1, Hm1, Ht1.
  assert (Hb1' : backend (self w1) = None \/ backend (self w1) = Some "scipy")
    by (rewrite Hb1; exact Hb0).
  assert (Hm1' : method (self w1) = "hierarchical") by (rewrite Hm1; exact Hm0).
  destruct (fit_hierarchical_pops C X2 w1 Hb1' Hm1') as [_ [_ [_ [t2 Ht2]]]].
  fold w2 in Ht2.
  split; [|split].
  - exists t1. rewrite Ht1, <- List.app_assoc. simpl.
    unfold kw_get. rewrite Hs. simpl. rewrite Hl. reflexivity.
  - rewrite Hk1. apply lookup_delete_eq.
  - exists t2. rewrite Ht2, <- List.app_assoc. simpl.
    unfold kw_get. rewrite Hk1, lookup_delete_eq. reflexivity.
Qed.

(** The statement instantiated on a clustergram built with ward linkage
    and no [k_range]. *)
Lemma second_fit_uses_single_linkage_witness :
  let w := world_of (__init__ None None "hierarchical" true
                       {[ "linkage" := VStr "ward" ]}) in
  let w1 := snd (fit toy_hierarchy example_data ∅ w) in
  let w2 := snd (fit toy_hierarchy example_data ∅ w1) in
  (exists t, trace w1 = trace w ++ EvLinkage (VStr "ward") :: t)
  /\ kwargs (self w1) !! "linkage" = None
  /\ (exists t, trace w2 = trace w1 ++ EvLinkage (VStr "single") :: t).
Proof.
  apply (second_fit_uses_single_linkage toy_hierarchy None None true
           {[ "linkage" := VStr "ward" ]} (VStr "ward") example_data example_data).
  - left. reflexivity.
  - reflexivity.
  - reflexivity.
Defined.

(** ** The trivial case k = 1 *)

Lemma od_get_set_eq {V} (d : odict V) k v : od_get (od_set d k v) k = Some v.
Proof.
  induction d as [|[k' v'] d IH]; simpl.
  - now rewrite Z.eqb_refl.
  - destruct (Z.eqb k k') eqn:E; simpl; rewrite E; auto.
Qed.

Lemma od_get_set_ne {V} (d : odict V) k k' v :
  k <> k' -> od_get (od_set d k v) k' = od_get d k'.
Proof.
  intros Hne. induction d as [|[k2 v2] d IH]; simpl.
  - assert (E : Z.eqb k' k = false) by (apply Z.eqb_neq; congruence). now rewrite E.
  - destruct (Z.eqb k k2) eqn:E; simpl.
    + apply Z.eqb_eq in E. subst k2.
      assert (E' : Z.eqb k' k = false) by (apply Z.eqb_neq; congruence).
      now rewrite E'.
    + now rewrite IH.
Qed.

Lemma od_get_set_keep {V} (d : odict V) k k' v v' :
  od_get d k' = Some v' -> (k = k' -> v = v') ->
  od_get (od_set d k v) k' = Some v'.
Proof.
  intros Hd Hv. destruct (Z.eq_dec k k') as [->|Hne].
  - rewrite od_get_set_eq. f_equal. now apply Hv.
  - now rewrite od_get_set_ne.
Qed.

Section TrivialCase.

Variable C : Collaborators.
Variable X : Data.

Lemma k1_stored_set_labels d n v :
  (exists w, k1_stored X w /\ labels (self w) = Some d) ->
  (n = 1 -> v = py_repeat 0 (Z.of_nat (length X))) ->
  preserves (k1_stored X) (assign (set_labels (od_set d n v))).
Proof.
  intros [w0 [[lab0 [cc0 [Hl0 [_ [Hg0 _]]]]] Hd]] Hv w [lab [cc [Hl [Hc [Hg1 Hg2]]]]].
  rewrite Hl0 in Hd. injection Hd as <-.
  exists (od_set lab0 n v), cc. simpl. repeat split; auto.
  now apply od_get_set_keep.
Qed.

Lemma k1_stored_set_centers d n v :
  (exists w, k1_stored X w /\ cluster_centers (self w) = Some d) ->
  (n = 1 -> v = [mean_axis0 X]) ->
  preserves (k1_stored X) (assign (set_cluster_centers (od_set d n v))).
Proof.
  intros [w0 [[lab0 [cc0 [_ [Hc0 [_ Hg0]]]]] Hd]] Hv w [lab [cc [Hl [Hc [Hg1 Hg2]]]]].
  rewrite Hc0 in Hd. injection Hd as <-.
  exists lab, (od_set cc0 n v). simpl. repeat split; auto.
  now apply od_get_set_keep.
Qed.

Lemma k1_stored_emit e : preserves (k1_stored X) (emit e).
Proof. intros w H. exact H. Qed.

Lemma skips_k1_assign pre upd : preserves (skips_k1 pre) (assign upd).
Proof. intros w H. exact H. Qed.

Lemma skips_k1_emit pre e : fits_k1 e = false -> preserves (skips_k1 pre) (emit e).
Proof.
  intros He w [t [Ht Hall]]. exists (t ++ [e]). simpl. split.
  - rewrite Ht. now rewrite <- List.app_assoc.
  - apply Forall_app. split; auto.
Qed.

Lemma step_keeps_k1 ev est n : preserves (k1_stored X) (kmeans_step X ev est n).
Proof.
  unfold kmeans_step. destruct (Z.eqb n 1) eqn:E.
  - apply Z.eqb_eq in E.
    apply preserves_bind; [|intros _]; unfold setitem;
      apply preserves_bind_attr; intros d Hd.
    + now apply k1_stored_set_labels.
    + now apply k1_stored_set_centers.
  - apply Z.eqb_neq in E.
    apply preserves_bind; [preserves_step|]. intros kw.
    apply preserves_bind; [apply k1_stored_emit|]. intros _.
    apply preserves_bind; [preserves_step|]. intros res.
    apply preserves_bind; [|intros _]; unfold setitem;
      apply preserves_bind_attr; intros d Hd.
    + apply k1_stored_set_labels; auto. congruence.
    + apply k1_stored_set_centers; auto. congruence.
Qed.

Lemma step_skips_k1 pre ev est n :
  (forall n, fits_k1 (ev n) = Z.eqb n 1) ->
  preserves (skips_k1 pre) (kmeans_step X ev est n).
Proof.
  intros Hev. unfold kmeans_step, setitem. destruct (Z.eqb n 1) eqn:E.
  - repeat first [preserves_step | apply skips_k1_assign].
  - repeat first [preserves_step | apply skips_k1_assign
                 | apply skips_k1_emit; rewrite Hev; exact E].
Qed.

Lemma step_stores_k1 ev est w :
  fst (kmeans_step X ev est 1 w) = inr tt -> k1_stored X (snd (kmeans_step X ev est 1 w)).
Proof.
  unfold kmeans_step. cbn [Z.eqb Pos.eqb]. unfold setitem, bind, attr, assign.
  destruct (labels (self w)) as [lab|]; [|discriminate].
  cbn [self cluster_centers set_labels].
  destruct (cluster_centers (self w)) as [cc|]; [|discriminate].
  intros _. cbn [snd].
  eexists. eexists. cbn [self labels cluster_centers set_labels set_cluster_centers].
  split; [reflexivity|]. split; [reflexivity|].
  split; apply od_get_set_eq.
Qed.

Lemma loop_stores_k1 ev est (l : list Z) : forall w,
  In 1 l -> fst (forM_ l (kmeans_step X ev est) w) = inr tt ->
  k1_stored X (snd (forM_ l (kmeans_step X ev est) w)).
Proof.
  induction l as [|n l IH]; intros w Hin Hok; [contradiction|].
  cbn [forM_] in *. unfold bind in *.
  destruct (kmeans_step X ev est n w) as [[e|[]] w1] eqn:E; [discriminate|].
  destruct (Z.eq_dec n 1) as [->|Hne].
  - assert (K : k1_stored X w1).
    { pose proof (step_stores_k1 ev est w) as B. rewrite E in B. now apply B. }
    revert K. apply preserves_forM_. intros x. apply step_keeps_k1.
  - apply IH; auto. destruct Hin; [congruence | assumption].
Qed.

(** A k-means routine on a sweep that contains 1. *)
Lemma kmeans_loop_k1 ev est ks w :
  (forall n, fits_k1 (ev n) = Z.eqb n 1) ->
  In 1 ks -> fst (forM_ ks (kmeans_step X ev est) w) = inr tt ->
  k1_stored X (snd (forM_ ks (kmeans_step X ev est) w))
  /\ skips_k1 (trace w) (snd (forM_ ks (kmeans_step X ev est) w)).
Proof.
  intros Hev Hin Hok. split; [now apply loop_stores_k1|].
  apply preserves_forM_.
  - intros n. now apply step_skips_k1.
  - exists []. split; [now rewrite List.app_nil_r | constructor].
Qed.

Lemma kmeans_sklearn_k1 minibatch fit_kw ks w :
  k_range (self w) = Some ks -> In 1 ks ->
  fst (_kmeans_sklearn C X minibatch fit_kw w) = inr tt ->
  k1_stored X (snd (_kmeans_sklearn C X minibatch fit_kw w))
  /\ skips_k1 (trace w) (snd (_kmeans_sklearn C X minibatch fit_kw w)).
Proof.
  intros Hk Hin. unfold _kmeans_sklearn.
  rewrite !bind_assign, bind_field. cbn [self k_range set_labels set_cluster_centers].
  rewrite Hk. cbn [iter]. rewrite bind_ret. intros Hok.
  match type of Hok with
  | fst (forM_ _ _ ?w2) = _ =>
      exact (kmeans_loop_k1 (EvKMeans minibatch)
               (fun n kw => KMeans_fit C minibatch n kw X fit_kw) ks w2
               (fun n => eq_refl) Hin Hok)
  end.
Qed.

Lemma kmeans_cuml_k1 fit_kw ks w :
  k_range (self w) = Some ks -> In 1 ks ->
  fst (_kmeans_cuml C X fit_kw w) = inr tt ->
  k1_stored X (snd (_kmeans_cuml C X fit_kw w))
  /\ skips_k1 (trace w) (snd (_kmeans_cuml C X fit_kw w)).
Proof.
  intros Hk Hin. unfold _kmeans_cuml.
  rewrite !bind_assign, bind_field. cbn [self k_range set_labels set_cluster_centers].
  rewrite Hk. cbn [iter]. rewrite bind_ret. intros Hok.
  match type of Hok with
  | fst (forM_ _ _ ?w2) = _ =>
      exact (kmeans_loop_k1 EvCuKMeans (fun n kw => cuKMeans_fit C n kw X fit_kw)
               ks w2 (fun n => eq_refl) Hin Hok)
  end.
Qed.

End TrivialCase.

Lemma bind_unit_tail (c : M unit) (k : unit -> M unit) w :
  (forall w', k tt w' = (inr tt, w')) -> bind c k w = c w.
Proof.
  intros Hk. unfold bind. destruct (c w) as [[e|[]] w']; auto.
Qed.

Ltac fit_flags :=
  cbn [is_none backend_in str_in existsb orb andb negb
       String.eqb Ascii.eqb Bool.eqb].

(** The part of [fit] that precedes the estimator, on a configuration
    given by [Hb], [Hm] and [Hk]. *)
Ltac fit_prefix Hb Hm Hk :=
  unfold fit;
  rewrite bind_field, Hb; fit_flags;
  rewrite bind_ret, bind_field, Hm, bind_assign, bind_field;
  cbn [self k_range set__backend]; rewrite Hk; fit_flags;
  rewrite bind_ret, bind_field; cbn [self _backend set__backend]; fit_flags;
  rewrite !bind_ret, bind_field, !bind_assign; fit_flags.

(** With a k-means configuration and a sweep, [fit] is one of the k-means
    routines run on the object with its caches reset. *)
Lemma fit_reaches_kmeans C X fit_kw w ks :
  kmeans_config (backend (self w)) (method (self w)) ->
  k_range (self w) = Some ks ->
  exists w0,
    k_range (self w0) = Some ks /\ trace w0 = trace w
    /\ (fit C X fit_kw w = _kmeans_sklearn C X false fit_kw w0
        \/ fit C X fit_kw w = _kmeans_sklearn C X true fit_kw w0
        \/ fit C X fit_kw w = _kmeans_cuml C X fit_kw w0).
Proof.
  intros [[[Hb|Hb] [Hm|Hm]] | [Hb Hm]] Hk; eexists;
    (split; [|split; [|fit_prefix Hb Hm Hk]]).
  3: { left. apply bind_unit_tail. reflexivity. }
  1: exact Hk. 1: reflexivity.
  3: { right; left. apply bind_unit_tail. reflexivity. }
  1: exact Hk. 1: reflexivity.
  3: { left. apply bind_unit_tail. reflexivity. }
  1: exact Hk. 1: reflexivity.
  3: { right; left. apply bind_unit_tail. reflexivity. }
  1: exact Hk. 1: reflexivity.
  3: { right; right. rewrite bind_ret. apply bind_unit_tail. reflexivity. }
  1: exact Hk. 1: reflexivity.
Qed.

(** C5 as stated does not hold for every method.  With the Gaussian
    mixture the estimator is fit for k = 1 as for any k, and the centre
    stored for k = 1 is the observation of highest density, here 0, not
    the mean 1.  With the hierarchical method the clusters of k = 1 are
    cut from the linkage tree by the collaborator as for any k. *)
Lemma k1_not_skipped_by_every_method :
  (exists w',
      fit mean_gmm [[0]; [0]; [3]]%Q ∅ (world_of (__init__ (Some [1]) None "gmm" true ∅))
      = (inr tt, w')
      /\ trace w' = [EvGaussianMixture 1]
      /\ cluster_centers (self w') = Some [(1, [[0%Q]])]
      /\ ~ centers_eq [[0%Q]] [mean_axis0 [[0]; [0]; [3]]%Q])
  /\ (exists w',
         fit toy_hierarchy example_data ∅
           (world_of (__init__ (Some [1]) None "hierarchical" true ∅))
         = (inr tt, w')
         /\ trace w' = [EvLinkage (VStr "single"); EvFcluster 2]).
Proof.
  split.
  - eexists. split; [vm_compute; reflexivity|]. split; [reflexivity|].
    split; [reflexivity|].
    intros H. inversion H as [|? ? ? ? H1 _]; subst.
    inversion H1 as [|? ? ? ? H2 _]; subst. vm_compute in H2. discriminate.
  - eexists. split; [vm_compute; reflexivity|]. reflexivity.
Qed.

(** C5, amended.  A fit with a k-means method (kmeans or minibatchkmeans
    on the scikit-learn backend, kmeans on the cuML backend) over a
    sweep that contains 1 does not call the estimator for k = 1: when
    the fit returns, the centre stored for k = 1 is the feature-wise
    mean of the observations, every observation has label 0 at k = 1,
    and no k-means call for a single cluster has been made. *)
Theorem k1_skipped_by_kmeans (C : Collaborators) (X : Data)
    (fit_kw : gmap string pyval) (w w' : World) (ks : list Z) :
  kmeans_config (backend (self w)) (method (self w)) ->
  k_range (self w) = Some ks -> In 1 ks ->
  fit C X fit_kw w = (inr tt, w') ->
  k1_stored X w' /\ skips_k1 (trace w) w'.
Proof.
  intros Hcfg Hk Hin Hfit.
  destruct (fit_reaches_kmeans C X fit_kw w ks Hcfg Hk) as [w0 [Hk0 [Ht0 Hr]]].
  rewrite <- Ht0.
  destruct Hr as [Hr|[Hr|Hr]]; rewrite Hr in Hfit.
  - pose proof (kmeans_sklearn_k1 C X false fit_kw ks w0 Hk0 Hin) as K.
    rewrite Hfit in K. now apply K.
  - pose proof (kmeans_sklearn_k1 C X true fit_kw ks w0 Hk0 Hin) as K.
    rewrite Hfit in K. now apply K.
  - pose proof (kmeans_cuml_k1 C X fit_kw ks w0 Hk0 Hin) as K.
    rewrite Hfit in K. now apply K.
Qed.

(** The statement instantiated on three observations and the sweep
    1, 2. *)
Lemma k1_skipped_by_kmeans_witness :
  exists w',
    fit toy_kmeans [[0]; [0]; [3]]%Q ∅
      (world_of (__init__ (Some [1; 2]) None "kmeans" true ∅)) = (inr tt, w')
    /\ k1_stored [[0]; [0]; [3]]%Q w' /\ skips_k1 [] w'.
Proof.
  eexists. split; [vm_compute; reflexivity|].
  apply (k1_skipped_by_kmeans toy_kmeans [[0]; [0]; [3]]%Q ∅
           (world_of (__init__ (Some [1; 2]) None "kmeans" true ∅)) _ [1; 2]).
  - left. split; left; reflexivity.
  - reflexivity.
  - left. reflexivity.
  - vm_compute. reflexivity.
Defined.
